(** * Validation script of the WMT2025 terminology shared task

    A shallow embedding of [src/testset/validation.py] and the properties
    of its three validation stages (file names, consistency with the input
    files, validity of the data points).

    Modelling conventions.
    - A Python [str] is a [string]; one [ascii] stands for one character.
    - A Python [int] is a [Z], a [float] is a binary64 [float].
    - A value produced by [json.loads] is a [json]; a [dict] is an
      association list in insertion order, whose keys are pairwise distinct
      in every value Python can build (see [regular]).
    - A function that can raise returns a [res]: [Ok v] or [Raise e].  The
      [assert] statements raise [AssertionError] with a message; the message
      is kept in structured form ([failure]) and rendered by [message].
    - The file system and [json.loads] are not part of the script: they are
      the variables [read_lines], [listdir] and [json_loads] of the section
      [Script]. *)

From Stdlib Require Import ZArith Ascii String List Bool Lia DecimalString.
From Stdlib Require Import Floats.
From stdpp Require Import base list strings gmap.

#[local] Set Warnings "-clear-no-such-hyp".

Local Open Scope Z_scope.

(** ** Python strings and lists *)

Module PyStr.

(** [s.split(c)] for a one-character separator [c]: never empty. *)
Fixpoint split (c : ascii) (s : string) : list string :=
  match s with
  | EmptyString => [EmptyString]
  | String a r =>
      if bool_decide (a = c) then EmptyString :: split c r
      else match split c r with
           | [] => [String a EmptyString]
           | t :: ts => String a t :: ts
           end
  end.

(** [sep.join(l)] *)
Fixpoint join (sep : string) (l : list string) : string :=
  match l with
  | [] => ""
  | x :: xs =>
      match xs with
      | [] => x
      | _ :: _ => x +:+ sep +:+ join sep xs
      end
  end.

(** [s[:n]] and [s[n:]] for [0 <= n] *)
Fixpoint take (n : nat) (s : string) : string :=
  match n, s with
  | S n', String a r => String a (take n' r)
  | _, _ => ""
  end.

Fixpoint drop (n : nat) (s : string) : string :=
  match n, s with
  | S n', String _ r => drop n' r
  | _, _ => s
  end.

(** [s.endswith(suf)] *)
Definition endswith (s suf : string) : bool :=
  let n := String.length s in
  let k := String.length suf in
  bool_decide (k ≤ n)%nat && bool_decide (drop (n - k) s = suf).

(** [str(n)] for an [int] *)
Definition of_Z (n : Z) : string := NilZero.string_of_int (Z.to_int n).

Definition of_nat (n : nat) : string := of_Z (Z.of_nat n).

End PyStr.

(** [l[-k]] for [1 <= k]: [None] stands for [IndexError]. *)
Definition index_neg {A} (l : list A) (k : nat) : option A :=
  if bool_decide (1 ≤ k ≤ length l)%nat then l !! (length l - k)%nat else None.

(** ** Values read by [json.loads] *)

#[warnings="-register-all"] Inductive json : Type :=
| JNull
| JBool (b : bool)
| JInt (z : Z)
| JFloat (f : float)
| JStr (s : string)
| JList (l : list json)
| JDict (d : list (string * json)).

(** [type(v)] *)
Inductive pytype := TNone | TBool | TInt | TFloat | TStr | TList | TDict.

Global Instance pytype_eq_dec : EqDecision pytype.
Proof. solve_decision. Defined.

Definition type_of (v : json) : pytype :=
  match v with
  | JNull => TNone
  | JBool _ => TBool
  | JInt _ => TInt
  | JFloat _ => TFloat
  | JStr _ => TStr
  | JList _ => TList
  | JDict _ => TDict
  end.

(** [d[k]] on the association list of a [dict]: the binding of [k]. *)
Fixpoint assoc (k : string) (d : list (string * json)) : option json :=
  match d with
  | [] => None
  | (k', v) :: d' => if bool_decide (k' = k) then Some v else assoc k d'
  end.

(** Numbers compare by value across [bool], [int] and [float]. *)
Inductive num := NumZ (z : Z) | NumF (f : float).

Definition as_num (v : json) : option num :=
  match v with
  | JBool b => Some (NumZ (Z.b2z b))
  | JInt z => Some (NumZ z)
  | JFloat f => Some (NumF f)
  | _ => None
  end.

(** [f == z] for a float and an integer: exact, no rounding of [z]. *)
Definition float_eq_Z (f : float) (z : Z) : bool :=
  match Prim2SF f with
  | S754_zero _ => bool_decide (z = 0)
  | S754_finite s m e =>
      let sgn := if s then -1 else 1 in
      if bool_decide (0 ≤ e) then bool_decide (z = sgn * (Z.pos m * 2 ^ e))
      else bool_decide (Z.pos m `mod` 2 ^ (- e) = 0)
           && bool_decide (z = sgn * (Z.pos m `div` 2 ^ (- e)))
  | _ => false
  end.

Definition num_eq (a b : num) : bool :=
  match a, b with
  | NumZ x, NumZ y => bool_decide (x = y)
  | NumF f, NumF g => PrimFloat.eqb f g
  | NumZ x, NumF g => float_eq_Z g x
  | NumF f, NumZ y => float_eq_Z f y
  end.

(** [a == b] on values read by [json.loads].  Numbers compare by value, a
    NaN differs from every number, lists compare element by element and
    dicts key by key.  (Inside a list or a dict CPython also takes one and
    the same object for equal to itself, which matters for a NaN only; the
    properties below that rest on [==] are stated for values without NaN.) *)
Fixpoint py_eq (a b : json) {struct a} : bool :=
  match a with
  | JNull => match b with JNull => true | _ => false end
  | JStr s => match b with JStr t => bool_decide (s = t) | _ => false end
  | JList l =>
      match b with
      | JList m =>
          (fix go (l m : list json) {struct l} : bool :=
             match l, m with
             | [], [] => true
             | x :: l', y :: m' => py_eq x y && go l' m'
             | _, _ => false
             end) l m
      | _ => false
      end
  | JDict d =>
      match b with
      | JDict e =>
          bool_decide (length d = length e)
          && (fix go (d : list (string * json)) {struct d} : bool :=
                match d with
                | [] => true
                | (k, v) :: d' =>
                    match assoc k e with
                    | Some w => py_eq v w
                    | None => false
                    end && go d'
                end) d
      | _ => false
      end
  | _ =>
      match as_num a, as_num b with
      | Some x, Some y => num_eq x y
      | _, _ => false
      end
  end.

(** ** Exceptions *)

(** The script's [assert] statements, one constructor per message template;
    the names are those of the error taxonomy. *)
Inductive failure :=
| NamingError (fname : string)
| SystemNameConflictError (names : list string)
| MissingFileError (fname : string)
| FormatError (filepath : string)
| CountMismatchError (output_fname : option string) (expected got : nat)
| ConsistencyError (output_fname : option string) (idx : nat)
| SchemaError (output_fname : option string) (idx : nat)
              (expected observed : list string)
| SentenceTypeError (is_output : bool) (output_fname : option string)
                    (idx : nat) (observed : pytype)
| TermsTypeError (output_fname : option string) (idx : nat) (observed : pytype)
| TermsValueTypeError (output_fname : option string) (idx : nat) (track : Z)
                      (observed : option pytype).

Inductive pykey := KStr (s : string) | KInt (z : Z).

Inductive exn :=
| AssertionError (a : failure)
| TypeError
| KeyError (k : pykey)
| IndexError
| AttributeError
| OSError
| UsageError.

Inductive res (A : Type) : Type :=
| Ok (a : A)
| Raise (e : exn).
Arguments Ok {A} a.
Arguments Raise {A} e.

Global Instance res_ret : MRet res := fun A a => Ok a.
Global Instance res_bind : MBind res := fun A B f m =>
  match m with
  | Ok a => f a
  | Raise e => Raise e
  end.

(** [assert c, msg] *)
Definition assert (c : bool) (a : failure) : res unit :=
  if c then Ok () else Raise (AssertionError a).

(** [for x in l: body(x)] where the body can only raise. *)
Fixpoint for_each {A} (l : list A) (body : A → res unit) : res unit :=
  match l with
  | [] => Ok ()
  | x :: l' => body x ≫= λ _, for_each l' body
  end.

(** [None] raises [e]. *)
Definition or_raise {A} (o : option A) (e : exn) : res A :=
  match o with
  | Some a => Ok a
  | None => Raise e
  end.

(** *** Rendering of the messages *)

Definition repr_opt (o : option string) : string :=
  match o with
  | Some s => s
  | None => "None"
  end.

Definition type_name (t : pytype) : string :=
  match t with
  | TNone => "NoneType"
  | TBool => "bool"
  | TInt => "int"
  | TFloat => "float"
  | TStr => "str"
  | TList => "list"
  | TDict => "dict"
  end.

Definition repr_type (t : pytype) : string :=
  "<class '" +:+ type_name t +:+ "'>".

Definition naming_pattern : string :=
  ", has to be sysname.lang_pair.mode.jsonl".

Definition message (a : failure) : string :=
  match a with
  | NamingError fname =>
      "ERROR: wrong naming of file " +:+ fname +:+ naming_pattern
  | SystemNameConflictError names =>
      "ERROR: inconsistent system naming: " +:+ PyStr.join ", " names
  | MissingFileError fname =>
      "ERROR: " +:+ fname +:+ " missing in submission"
  | FormatError filepath =>
      "ERROR: " +:+ filepath +:+ " does not have JSONL format"
  | CountMismatchError ofn expected got =>
      "ERROR: inconsistent number of lines in " +:+ repr_opt ofn
      +:+ ": expected " +:+ PyStr.of_nat expected
      +:+ ", got " +:+ PyStr.of_nat got
  | ConsistencyError ofn idx =>
      "ERROR: inconsistent input data (src sentences or terms), file "
      +:+ repr_opt ofn +:+ ", line " +:+ PyStr.of_nat idx
  | SchemaError ofn idx expected observed =>
      "ERROR: wrong key set in file " +:+ repr_opt ofn +:+ ", "
      +:+ PyStr.of_nat idx +:+ " line: expected " +:+ PyStr.join ", " expected
      +:+ ", got " +:+ PyStr.join ", " observed
  | SentenceTypeError is_output ofn idx observed =>
      "ERROR: wrong dtype of " +:+ (if is_output then "output" else "input")
      +:+ " sentence in file " +:+ repr_opt ofn +:+ ", " +:+ PyStr.of_nat idx
      +:+ " line: expected str, got " +:+ repr_type observed
  | TermsTypeError ofn idx observed =>
      "ERROR: wrong dtype of terminology in file " +:+ repr_opt ofn +:+ ", "
      +:+ PyStr.of_nat idx +:+ " line: expected dict, got "
      +:+ repr_type observed
  | TermsValueTypeError ofn idx track observed =>
      "ERROR: wrong dtype of terminology values in file " +:+ repr_opt ofn
      +:+ ", " +:+ PyStr.of_nat idx +:+ " line: expected "
      +:+ (if bool_decide (track = 1) then "str" else "list(str)")
      +:+ ", got "
      +:+ match observed with
          | Some t => repr_type t
          | None => "None"
          end
  end.

(** ** Operations on values *)

(** [v[k]] for a string [k] *)
Definition getitem (v : json) (k : string) : res json :=
  match v with
  | JDict d => or_raise (assoc k d) (KeyError (KStr k))
  | _ => Raise TypeError
  end.

(** [v.keys()] *)
Definition keys (v : json) : res (list string) :=
  match v with
  | JDict d => Ok (d.*1)
  | _ => Raise AttributeError
  end.

(** [k in l] *)
Definition mem (k : string) (l : list string) : bool := bool_decide (k ∈ l).

(** [set(l1) == set(l2)] *)
Definition set_eq (l1 l2 : list string) : bool :=
  bool_decide ((list_to_set l1 : gset string) = list_to_set l2).

(** ** The script *)

(** What [file_basic_check] returns: the parsed lines, or a [bool]. *)
Inductive loaded :=
| Data (records : list json)
| Flag (b : bool).

(** [len(x)] *)
Definition py_len (x : loaded) : res nat :=
  match x with
  | Data l => Ok (length l)
  | Flag _ => Raise TypeError
  end.

(** Iterating over [x] ([enumerate(x)]) *)
Definition py_iter (x : loaded) : res (list json) :=
  match x with
  | Data l => Ok l
  | Flag _ => Raise TypeError
  end.

(** Truth value of [x] in [assert x] *)
Definition truthy (x : loaded) : bool :=
  match x with
  | Data l => negb (bool_decide (l = []))
  | Flag b => b
  end.

Definition modes : list string := ["noterm"; "random"; "proper"].

(** [file_naming_check(fname, track)] *)
Definition file_naming_check (fname : string) (track : Z) : res unit :=
  let fname_list := PyStr.split "." fname in
  let well_named (n : nat) : bool :=
    bool_decide (length fname_list = n)
    && bool_decide (index_neg fname_list 1 = Some "jsonl")
    && from_option (λ m, mem m modes) false (index_neg fname_list 2) in
  if bool_decide (track = 1) then assert (well_named 4%nat) (NamingError fname)
  else if bool_decide (track = 2) then
    assert (well_named 5%nat) (NamingError fname)
  else Ok ().

(** [zip(range(2015, 2025), ['enzh', 'zhen'] * 5)] as a [dict]: the keys are
    distinct, so the items are the zipped pairs in order. *)
Definition year2pair_candidates : list (Z * string) :=
  zip (Z.of_nat <$> seq 2015 10)
      (concat (replicate 5 ["enzh"; "zhen"])).

(** The three file names expected for a stem [sysname.pair] or
    [sysname.year.pair]. *)
Definition three_modes (stem : string) : list string :=
  [stem +:+ ".noterm.jsonl"; stem +:+ ".random.jsonl";
   stem +:+ ".proper.jsonl"].

(** The list [expected_fnames] built by [file_year_pair_check]. *)
Definition expected_fnames (candidates : gset string) (sysname : string)
    (track : Z) : list string :=
  let submitted_pairs :=
    if bool_decide (track = 1) then
      filter (λ lang_pair, lang_pair ∈ candidates) ["enes"; "enru"; "ende"]
    else [] in
  if bool_decide (track = 1) then
    submitted_pairs ≫= λ lang_pair,
      three_modes (sysname +:+ "." +:+ lang_pair)
  else if bool_decide (track = 2) then
    year2pair_candidates ≫= λ '(year, lang_pair),
      three_modes (sysname +:+ "." +:+ PyStr.of_Z year +:+ "." +:+ lang_pair)
  else [].

(** [file_year_pair_check(fnames_list, sysname, track)] *)
Definition file_year_pair_check (fnames_list : list string) (sysname : string)
    (track : Z) : res unit :=
  candidates ← mapM (λ f, or_raise (index_neg (PyStr.split "." f) 3) IndexError)
                    fnames_list;
  for_each (expected_fnames (list_to_set candidates) sysname track)
    (λ fname, assert (mem fname fnames_list) (MissingFileError fname)).

(** [find_file_by_prefix(filename, file_list, is_input)] *)
Definition find_file_by_prefix (filename : string) (file_list : list string)
    (is_input : bool) : option string :=
  let filename :=
    if is_input then PyStr.join "." (drop 1 (PyStr.split "." filename))
    else filename in
  List.find (λ file, PyStr.endswith file filename) file_list.

(** [track2dtype[track]] *)
Definition track2dtype (track : Z) : res pytype :=
  if bool_decide (track = 1) then Ok TStr
  else if bool_decide (track = 2) then Ok TList
  else Raise (KeyError (KInt track)).

(** The loop of [check_dict_format] over the keys of [terms]. *)
Fixpoint check_dict_format_loop (terms : json) (track : Z) (ks : list string)
    : res (bool * option pytype) :=
  match ks with
  | [] => Ok (true, None)
  | key :: ks' =>
      v ← getitem terms key;
      expected ← track2dtype track;
      if bool_decide (type_of v ≠ expected) then Ok (false, Some (type_of v))
      else check_dict_format_loop terms track ks'
  end.

(** [check_dict_format(terms, track)] *)
Definition check_dict_format (terms : json) (track : Z)
    : res (bool * option pytype) :=
  ks ← keys terms;
  check_dict_format_loop terms track ks.

(** [x[idx]] *)
Definition py_index (x : loaded) (idx : nat) : res json :=
  match x with
  | Data l => or_raise (l !! idx) IndexError
  | Flag _ => Raise TypeError
  end.

(** [dp['terms'] if 'terms' in dp.keys() else {}] *)
Definition terms_or_empty (datapoint : json) : res json :=
  ks ← keys datapoint;
  if mem "terms" ks then getitem datapoint "terms" else Ok (JDict []).

(** The body of the loop over [idx] in [sample_check]. *)
Definition sample_check_record (src : string) (output_fname : option string)
    (input_data output_data : loaded) (idx : nat) : res unit :=
  input_datapoint ← py_index input_data idx;
  output_datapoint ← py_index output_data idx;
  input_src ← getitem input_datapoint src;
  output_src ← getitem output_datapoint src;
  input_terms ← terms_or_empty input_datapoint;
  output_terms ← terms_or_empty output_datapoint;
  assert (py_eq input_src output_src && py_eq input_terms output_terms)
         (ConsistencyError output_fname idx).

(** The checks of [sample_check] on the two files once they are read. *)
Definition sample_check_data (src : string) (output_fname : option string)
    (input_data output_data : loaded) : res unit :=
  n_in ← py_len input_data;
  n_out ← py_len output_data;
  assert (bool_decide (n_in = n_out))
         (CountMismatchError output_fname n_in n_out);;
  for_each (seq 0 n_out)
           (sample_check_record src output_fname input_data output_data).

(** [key_list] of [datapoint_check] *)
Definition key_list (src tgt mode : string) : list string :=
  if mem mode ["random"; "proper"] then [src; tgt; "terms"] else [src; tgt].

(** The body of the loop over the data points in [datapoint_check]. *)
Definition datapoint_record_check (src tgt mode : string) (track : Z)
    (output_fname : option string) (idx : nat) (datapoint : json) : res unit :=
  ks ← keys datapoint;
  assert (set_eq (key_list src tgt mode) ks)
         (SchemaError output_fname idx (key_list src tgt mode) ks);;
  s ← getitem datapoint src;
  assert (bool_decide (type_of s = TStr))
         (SentenceTypeError false output_fname idx (type_of s));;
  t ← getitem datapoint tgt;
  assert (bool_decide (type_of t = TStr))
         (SentenceTypeError true output_fname idx (type_of t));;
  if mem mode ["random"; "proper"] then
    terms ← getitem datapoint "terms";
    assert (bool_decide (type_of terms = TDict))
           (TermsTypeError output_fname idx (type_of terms));;
    r ← check_dict_format terms track;
    assert r.1 (TermsValueTypeError output_fname idx track r.2)
  else Ok ().

(** [for idx, datapoint in enumerate(data)] *)
Definition enumerate {A} (l : list A) : list (nat * A) :=
  zip (seq 0 (length l)) l.

(** ** The data model of the records *)


(** Values on which [==] is reflexive: the keys of every [dict] are pairwise
    distinct, as in every [dict] Python builds, and no [float] is a NaN. *)
Fixpoint regular (v : json) : bool :=
  match v with
  | JFloat f => PrimFloat.eqb f f
  | JList l => forallb regular l
  | JDict d => bool_decide (NoDup d.*1) && forallb (λ kv, regular kv.2) d
  | _ => true
  end.



(** The [terms] field of a record, an empty mapping when the key is absent. *)
Definition terms_field (d : list (string * json)) : json :=
  default (JDict []) (assoc "terms" d).





(** The key set a record must have, by the mode of its file. *)
Definition expected_keys (src tgt mode : string) : gset string :=
  {[src; tgt]} ∪ (if bool_decide (mode = "random" ∨ mode = "proper")
                  then {["terms"]} else ∅).

(** [d[k] = v] on a [dict] *)
Fixpoint dict_set (k : string) (v : json) (d : list (string * json))
    : list (string * json) :=
  match d with
  | [] => [(k, v)]
  | (k', v') :: d' =>
      if bool_decide (k' = k) then (k, v) :: d' else (k', v') :: dict_set k v d'
  end.

(** The output record built from an input record [i]: the source sentence
    copied, a target sentence added and, for the modes with terms, the
    terms of [i] copied (an empty mapping when [i] has none).  A line that
    is no [dict] has no fields to copy and is kept as it is. *)
Definition skeleton (src tgt mode translation : string) (i : json) : json :=
  match i with
  | JDict d =>
      let o := dict_set src (default JNull (assoc src d)) [] in
      let o := dict_set tgt (JStr translation) o in
      JDict (if mem mode ["random"; "proper"]
             then dict_set "terms" (terms_field d) o else o)
  | _ => i
  end.

(** An input record of a file of the given mode: [==] is reflexive on its
    source sentence and terms, and a file of mode [noterm] has no terms. *)
Definition source_record (src mode : string) (i : json) : Prop :=
  ∃ d v, i = JDict d ∧ assoc src d = Some v ∧ regular v = true
         ∧ regular (terms_field d) = true
         ∧ (mem mode ["random"; "proper"] = false → terms_field d = JDict []).

(** A file name whose language pair is one of the pairs of track 1. *)
Definition listed_pair (f : string) : bool :=
  from_option (λ p, mem p ["enes"; "enru"; "ende"]) false
              (index_neg (PyStr.split "." f) 3).

(** *** Finite file systems and decoders, for the examples *)

(** A directory listed as pairs of a path and the lines of the file. *)
Fixpoint lines_in (files : list (string * list string)) (path : string)
    : option (list string) :=
  match files with
  | [] => None
  | (p, ls) :: files' =>
      if bool_decide (p = path) then Some ls else lines_in files' path
  end.

(** A decoder given by the table of the lines it decodes. *)
Fixpoint decode_by (table : list (string * json)) (line : string)
    : option json :=
  match table with
  | [] => None
  | (l, v) :: table' =>
      if bool_decide (l = line) then Some v else decode_by table' line
  end.

(** The records of the examples.  The text of a line only names its
    record: the decoder of the examples is a table. *)
Definition in_1 : json :=
  JDict [("en", JStr "Hi"); ("terms", JDict [("cat", JStr "gato")])].

Definition in_2 : json :=
  JDict [("en", JStr "Bye"); ("terms", JDict [])].

Definition out_1 : json := skeleton "en" "es" "random" "Hola" in_1.

Definition out_2 : json := skeleton "en" "es" "random" "Adios" in_2.

Definition out_2_changed : json :=
  JDict [("en", JStr "Bye!"); ("es", JStr "Adios"); ("terms", JDict [])].

Definition no_target : json := JDict [("en", JStr "Hi"); ("terms", JDict [])].

Definition plain_es : json := JDict [("en", JStr "Hi"); ("es", JStr "Hola")].

Definition plain_fr : json := JDict [("en", JStr "Hi"); ("fr", JStr "Salut")].

Definition numbers : json :=
  JDict [("en", JStr "Hi"); ("zh", JStr "Ni hao");
         ("terms", JDict [("cat", JList [JInt 1; JNull])])].

Definition demo_table : list (string * json) :=
  [("in 1", in_1); ("in 2", in_2); ("out 1", out_1); ("out 2", out_2);
   ("out 2 changed", out_2_changed); ("no target", no_target);
   ("plain es", plain_es); ("plain fr", plain_fr); ("numbers", numbers)].

Definition demo_files : list (string * list string) :=
  [("in/enes.random.jsonl", ["in 1"; "in 2"]);
   ("in/2016.zhen.random.jsonl", ["in 1"; "in 2"]);
   ("out/sys.enes.noterm.jsonl", ["plain es"]);
   ("out/sys.enes.random.jsonl", ["out 1"; "out 2"]);
   ("out/sys.enes.proper.jsonl", ["no target"]);
   ("out/sys.enfr.noterm.jsonl", ["plain fr"]);
   ("out/alt.enes.random.jsonl", ["out 1"; "out 2 changed"]);
   ("out/sys.2016.zhen.random.jsonl", ["out 1"; "out 2"; "out 1"]);
   ("out/sys.2016.enzh.random.jsonl", ["numbers"]);
   ("out/broken.enes.noterm.jsonl", ["plain es"; "not a record"])].

(** More files for the examples: an input file with a record without
    source sentence, and an input file whose output file does not exist. *)
Definition no_source : json := JDict [("terms", JDict [])].

Definition demo_table_2 : list (string * json) :=
  ("no source", no_source) :: demo_table.

Definition demo_files_2 : list (string * list string) :=
  [("in/enru.random.jsonl", ["in 1"; "no source"]);
   ("out/sys.enru.random.jsonl", ["out 1"; "out 2"]);
   ("in/enru.noterm.jsonl", ["in 1"])]
  ++ demo_files.


Section Script.

#[local] Set Default Proof Using "Type".

(** [os.path.sep] *)
Variable path_sep : ascii.

(** The lines of the text file at a path ([f.readlines()]); [None] when
    [open] or the decoding as UTF-8 raises. *)
Variable read_lines : string → option (list string).

(** [json.loads]; [None] when it raises. *)
Variable json_loads : string → option json.

(** [os.listdir]: the entries of a directory; [None] when it raises (the
    directory does not exist, is no directory or cannot be read). *)
Variable listdir : string → option (list string).

(** [file_basic_check(filepath, opener)]; [filepath] is [None] when
    [find_file_by_prefix] found no file, and [open(None)] raises. *)
Definition file_basic_check (filepath : option string) (opener : bool)
    : loaded :=
  match filepath ≫= read_lines with
  | Some lines =>
      match mapM json_loads lines with
      | Some data => if opener then Data data else Flag true
      | None => Flag false
      end
  | None => Flag false
  end.

(** [[f.split(os.path.sep)[-1] for f in output_list if f.endswith('.jsonl')]] *)
Definition jsonl_fnames (output_list : list string) : list string :=
  (λ f, List.last (PyStr.split path_sep f) "")
    <$> filter (λ f, PyStr.endswith f ".jsonl" = true) output_list.

(** [file_check(output_list, track)] *)
Definition file_check (output_list : list string) (track : Z) : res string :=
  let output_list := filter (λ f, PyStr.endswith f ".jsonl" = true) output_list in
  let fnames_list :=
    (λ f, List.last (PyStr.split path_sep f) "") <$> output_list in
  for_each fnames_list (λ fname, file_naming_check fname track);;
  let submitted_sysname_candidates : gset string :=
    list_to_set ((λ f, List.hd "" (PyStr.split "." f)) <$> fnames_list) in
  assert (bool_decide (size submitted_sysname_candidates = 1%nat))
         (SystemNameConflictError (elements submitted_sysname_candidates));;
  sysname ← or_raise (elements submitted_sysname_candidates !! 0%nat) IndexError;
  file_year_pair_check fnames_list sysname track;;
  for_each output_list (λ filepath,
    assert (truthy (file_basic_check (Some filepath) false))
           (FormatError filepath));;
  Ok "CHECK FILENAMES: DONE".

(** The body of the loop over [fnames_list] in [sample_check]. *)
Definition sample_check_file (output_list input_list : list string)
    (fname : string) : res unit :=
  langpair ← or_raise (index_neg (PyStr.split "." fname) 3) IndexError;
  let src := PyStr.take 2 langpair in
  let output_fname := find_file_by_prefix fname output_list false in
  let input_fname := find_file_by_prefix fname input_list true in
  let output_data := file_basic_check output_fname true in
  let input_data := file_basic_check input_fname true in
  sample_check_data src output_fname input_data output_data.

(** [sample_check(output_list, input_list)] *)
Definition sample_check (output_list input_list : list string) : res string :=
  for_each (jsonl_fnames output_list)
           (sample_check_file output_list input_list);;
  Ok "CHECK CONSISTENCY WITH SOURCE DATA: DONE".

(** The body of the loop over [fnames_list] in [datapoint_check]. *)
Definition datapoint_check_file (output_list : list string) (track : Z)
    (fname : string) : res unit :=
  langpair ← or_raise (index_neg (PyStr.split "." fname) 3) IndexError;
  let src := PyStr.take 2 langpair in
  let tgt := PyStr.drop 2 langpair in
  mode ← or_raise (index_neg (PyStr.split "." fname) 2) IndexError;
  let output_fname := find_file_by_prefix fname output_list false in
  let data := file_basic_check output_fname true in
  records ← py_iter data;
  for_each (enumerate records) (λ '(idx, datapoint),
    datapoint_record_check src tgt mode track output_fname idx datapoint).

(** [datapoint_check(output_list, track)] *)
Definition datapoint_check (output_list : list string) (track : Z)
    : res string :=
  for_each (jsonl_fnames output_list) (datapoint_check_file output_list track);;
  Ok "CHECK VALIDITY OF DATA POINTS: DONE".

(** [main()] after the arguments are parsed: the two directories are
    listed, then the three stages run in order. *)
Definition main (track : Z) (inputs outputs : string) : res unit :=
  (if bool_decide (track = 1) then Ok ()
   else if bool_decide (track = 2) then Ok ()
   else Raise UsageError);;
  input_entries ← or_raise (listdir inputs) OSError;
  let input_list :=
    (λ f, inputs +:+ String path_sep "" +:+ f) <$> input_entries in
  output_entries ← or_raise (listdir outputs) OSError;
  let output_list :=
    (λ f, outputs +:+ String path_sep "" +:+ f) <$> output_entries in
  file_check output_list track;;
  sample_check output_list input_list;;
  datapoint_check output_list track;;
  Ok ().

(** * Properties *)

(** ** Loops and results *)

Lemma for_each_Ok {A} (l : list A) (body : A → res unit) :
  for_each l body = Ok () ↔ Forall (λ x, body x = Ok ()) l.
Proof.
  induction l as [|x l IH]; simpl.
  - split; [constructor | reflexivity].
  - destruct (body x) as [[]|e] eqn:Hx; simpl.
    + rewrite IH. split.
      * intros Hl. by constructor.
      * by inversion 1.
    + split; [discriminate | inversion 1; congruence].
Qed.

Lemma for_each_Raise {A} (l : list A) (body : A → res unit) e :
  for_each l body = Raise e ↔
  ∃ l1 x l2, l = l1 ++ x :: l2 ∧ Forall (λ y, body y = Ok ()) l1
             ∧ body x = Raise e.
Proof.
  induction l as [|x l IH]; simpl.
  - split; [discriminate | intros (l1 & y & l2 & Hl & _); by destruct l1].
  - destruct (body x) as [[]|e'] eqn:Hx; simpl.
    + rewrite IH. split.
      * intros (l1 & y & l2 & -> & Hl1 & Hy).
        exists (x :: l1), y, l2. split_and!; [done | by constructor | done].
      * intros (l1 & y & l2 & Hl & Hl1 & Hy). destruct l1 as [|z l1].
        { simplify_eq/=; congruence. }
        injection Hl as -> ->. inversion_clear Hl1. by exists l1, y, l2.
    + split.
      * intros [= ->]. exists [], x, l. by split_and!.
      * intros (l1 & y & l2 & Hl & Hl1 & Hy). destruct l1 as [|z l1].
        { simplify_eq/=; congruence. }
        injection Hl as -> ->. inversion_clear Hl1. congruence.
Qed.

Lemma mapM_or_raise {A B} (g : A → option B) (l : list A) (k : list B) e :
  Forall2 (λ x y, g x = Some y) l k →
  mapM (λ x, or_raise (g x) e) l = Ok k.
Proof. induction 1 as [|x y l k Hx _ IH]; simpl; [done|]. by rewrite Hx, IH. Qed.

(** ** The Record Reader *)

(** C8: [file_basic_check] is all or nothing.  Either the file was read and
    every one of its lines was decoded, and then the result is, for an
    opener, the list of the decoded lines in the order of the lines (and
    [True] when it is not called as an opener); or the file could not be
    read or some line could not be decoded, and then the result is [False].
    The result is always a value: nothing is raised, and a list that is
    returned never stops before the last line. *)
Theorem file_basic_check_all_or_nothing (filepath : option string)
    (opener : bool) :
  (∃ lines data,
     filepath ≫= read_lines = Some lines
     ∧ Forall2 (λ l v, json_loads l = Some v) lines data
     ∧ file_basic_check filepath opener
       = if opener then Data data else Flag true)
  ∨ (file_basic_check filepath opener = Flag false
     ∧ (filepath ≫= read_lines = None
        ∨ ∃ lines, filepath ≫= read_lines = Some lines
                   ∧ Exists (λ l, json_loads l = None) lines)).
Proof.
  unfold file_basic_check.
  destruct (filepath ≫= read_lines) as [lines|]; [|by right; split; [|left]].
  destruct (mapM json_loads lines) as [data|] eqn:Hdata.
  - left. exists lines, data. split_and!; [done| |done]. by apply mapM_Some_1.
  - right. split; [done|]. right. exists lines. split; [done|].
    by apply mapM_None_1.
Qed.

(** ** The Consistency Checker *)

Lemma find_file_by_prefix_None (filename : string) (file_list : list string)
    (is_input : bool) :
  find_file_by_prefix filename file_list is_input = None ↔
  ∀ file, file ∈ file_list →
    PyStr.endswith file
      (if is_input then PyStr.join "." (drop 1 (PyStr.split "." filename))
       else filename) = false.
Proof.
  unfold find_file_by_prefix.
  generalize (if is_input then PyStr.join "." (drop 1 (PyStr.split "." filename))
              else filename) as suffix.
  intros suffix. induction file_list as [|f l IH]; simpl.
  - split; [|done]. intros _ file Hin. by apply elem_of_nil in Hin.
  - destruct (PyStr.endswith f suffix) eqn:Hf.
    + split; [done|]. intros Hall. specialize (Hall f (list_elem_of_here _ _)).
      congruence.
    + rewrite IH. split.
      * intros Hall file [->|Hin]%elem_of_cons; auto.
      * intros Hall file Hin. apply Hall. by right.
Qed.

(** The checks on one pair of files raise a count mismatch only from the
    comparison of the two lengths. *)
Lemma sample_check_record_not_count src ofn input_data output_data idx
    ofn' a b :
  sample_check_record src ofn input_data output_data idx
  ≠ Raise (AssertionError (CountMismatchError ofn' a b)).
Proof.
  unfold sample_check_record, py_index, terms_or_empty, getitem, keys, or_raise,
    assert.
  repeat (match goal with
          | |- context [match ?x with _ => _ end] => destruct x
          end; simpl; try done).
Qed.

(** C3: when no input file name ends with the output file name stripped of
    its system name, [find_file_by_prefix] returns [None], reading [None]
    returns [False], and [len(False)] raises [TypeError]: the check of that
    file, and with it the whole stage, stops on an exception that is none of
    the assertions of the script. *)
Theorem missing_input_file_crashes (output_list input_list : list string)
    (fname : string) :
  (∀ file, file ∈ input_list →
     PyStr.endswith file (PyStr.join "." (drop 1 (PyStr.split "." fname)))
     = false) →
  find_file_by_prefix fname input_list true = None
  ∧ file_basic_check None true = Flag false
  ∧ py_len (Flag false) = Raise TypeError
  ∧ (is_Some (index_neg (PyStr.split "." fname) 3) →
     sample_check_file output_list input_list fname = Raise TypeError)
  ∧ (fname ∈ jsonl_fnames output_list →
     ∀ msg, sample_check output_list input_list ≠ Ok msg)
  ∧ (∀ before after,
       jsonl_fnames output_list = before ++ fname :: after →
       Forall (λ f, sample_check_file output_list input_list f = Ok ()) before →
       is_Some (index_neg (PyStr.split "." fname) 3) →
       sample_check output_list input_list = Raise TypeError).
Proof.
  intros Hnone.
  assert (find_file_by_prefix fname input_list true = None) as Hfind
    by by apply find_file_by_prefix_None.
  assert (∀ e, sample_check_file output_list input_list fname = Raise e →
               e = IndexError ∨ e = TypeError) as Hcases.
  { intros e. unfold sample_check_file. rewrite Hfind.
    destruct (index_neg _ 3); simpl; intros [= <-]; auto. }
  assert (is_Some (index_neg (PyStr.split "." fname) 3) →
          sample_check_file output_list input_list fname = Raise TypeError)
    as Hfile.
  { intros [langpair Hlp]. unfold sample_check_file. by rewrite Hlp, Hfind. }
  split_and!; [done..| |].
  - intros Hin msg. unfold sample_check.
    destruct (for_each _ _) as [[]|e] eqn:Hloop; [|done].
    apply for_each_Ok in Hloop. rewrite Forall_forall in Hloop.
    specialize (Hloop fname Hin).
    destruct (index_neg (PyStr.split "." fname) 3) as [langpair|] eqn:Hlp.
    + rewrite Hfile in Hloop by eauto. done.
    + unfold sample_check_file in Hloop. by rewrite Hlp in Hloop.
  - intros before after Hsplit Hbefore Hlp. unfold sample_check.
    assert (for_each (jsonl_fnames output_list)
              (sample_check_file output_list input_list) = Raise TypeError)
      as ->; [|done].
    apply for_each_Raise. exists before, fname, after. auto.
Qed.

(** C5: on a pair of files that were read, different record counts raise
    the count mismatch of the output file, with the count of the input file
    as the expected value and the count of the output file as the value got;
    equal counts never raise it. *)
Theorem record_counts_are_compared (output_list input_list : list string)
    (fname : string) (ins outs : list json) :
  is_Some (index_neg (PyStr.split "." fname) 3) →
  file_basic_check (find_file_by_prefix fname input_list true) true = Data ins →
  file_basic_check (find_file_by_prefix fname output_list false) true
  = Data outs →
  (length ins ≠ length outs →
   sample_check_file output_list input_list fname
   = Raise (AssertionError
              (CountMismatchError (find_file_by_prefix fname output_list false)
                                  (length ins) (length outs))))
  ∧ (length ins = length outs →
     ∀ ofn expected got,
       sample_check_file output_list input_list fname
       ≠ Raise (AssertionError (CountMismatchError ofn expected got))).
Proof.
  intros [langpair Hlp] Hin Hout. unfold sample_check_file.
  rewrite Hlp, Hin, Hout. simpl. unfold sample_check_data. simpl. split.
  - intros Hne. by rewrite bool_decide_eq_false_2.
  - intros Heq ofn expected got. rewrite bool_decide_eq_true_2 by done. simpl.
    intros (l1 & idx & l2 & _ & _ & Hidx)%for_each_Raise.
    by apply sample_check_record_not_count in Hidx.
Qed.

(** *** Equality of values *)


Lemma py_eq_JList_cons x l y m :
  py_eq (JList (x :: l)) (JList (y :: m))
  = py_eq x y && py_eq (JList l) (JList m).
Proof. reflexivity. Qed.

Lemma py_eq_JDict d e :
  py_eq (JDict d) (JDict e)
  = bool_decide (length d = length e)
    && forallb (λ kv, match assoc kv.1 e with
                      | Some w => py_eq kv.2 w
                      | None => false
                      end) d.
Proof.
  simpl. f_equal. induction d as [|[k v] d IH]; simpl; [done|]. by rewrite IH.
Qed.



(** *** Lookup in a [dict] *)


Lemma assoc_None k d : assoc k d = None ↔ k ∉ d.*1.
Proof.
  induction d as [|[k' v'] d IH]; simpl.
  - split; [intros _; apply not_elem_of_nil | done].
  - rewrite not_elem_of_cons. case_bool_decide as Hk.
    + split; [discriminate | intros [Hne _]; by destruct Hne].
    + rewrite IH. split; [by split; [congruence|] | by intros [_ ?]].
Qed.

Lemma assoc_is_Some k d : is_Some (assoc k d) ↔ k ∈ d.*1.
Proof.
  rewrite <-not_eq_None_Some, assoc_None. split; [|auto].
  intros H. by destruct (decide (k ∈ d.*1)).
Qed.

Lemma assoc_NoDup k v d : NoDup d.*1 → (k, v) ∈ d → assoc k d = Some v.
Proof.
  induction d as [|[k' v'] d IH]; simpl.
  - intros _ H. by apply elem_of_nil in H.
  - intros [Hk' Hd]%NoDup_cons [[= -> ->]|Hin]%elem_of_cons.
    + by rewrite bool_decide_eq_true_2.
    + case_bool_decide as Hk; [|auto]. subst k'. destruct Hk'.
      apply list_elem_of_fmap. by exists (k, v).
Qed.




(** *** The comparison of two records *)

Lemma terms_or_empty_dict (d : list (string * json)) :
  terms_or_empty (JDict d) = Ok (terms_field d).
Proof.
  unfold terms_or_empty, terms_field, mem. simpl.
  destruct (assoc "terms" d) as [v|] eqn:Hterms; simpl.
  - by rewrite bool_decide_eq_true_2 by (apply assoc_is_Some; eauto).
  - by rewrite bool_decide_eq_false_2 by by apply assoc_None.
Qed.

Lemma sample_check_record_dicts src ofn ins outs idx di do vi vo :
  ins !! idx = Some (JDict di) → outs !! idx = Some (JDict do) →
  assoc src di = Some vi → assoc src do = Some vo →
  sample_check_record src ofn (Data ins) (Data outs) idx
  = assert (py_eq vi vo && py_eq (terms_field di) (terms_field do))
           (ConsistencyError ofn idx).
Proof.
  intros Hi Ho Hvi Hvo. unfold sample_check_record. simpl.
  rewrite Hi, Ho. simpl. rewrite Hvi, Hvo. simpl.
  by rewrite !terms_or_empty_dict.
Qed.



Lemma for_each_seq_first_failure (body : nat → res unit) (n idx : nat) e :
  (idx < n)%nat → (∀ j, (j < idx)%nat → body j = Ok ()) → body idx = Raise e →
  for_each (seq 0 n) body = Raise e.
Proof.
  intros Hlt Hbefore Hidx. apply for_each_Raise.
  exists (seq 0 idx), idx, (seq (S idx) (n - S idx)). split_and!; [|  |done].
  - replace n with (idx + S (n - S idx))%nat at 1 by lia.
    by rewrite seq_app.
  - apply Forall_forall. intros j [_ Hj]%elem_of_seq. apply Hbefore. lia.
Qed.


(** *** Copying an input file *)

Lemma json_nested_ind (P : json → Prop) :
  P JNull → (∀ b, P (JBool b)) → (∀ z, P (JInt z)) → (∀ f, P (JFloat f)) →
  (∀ s, P (JStr s)) →
  (∀ l, Forall P l → P (JList l)) →
  (∀ d, Forall (λ kv, P kv.2) d → P (JDict d)) →
  ∀ v, P v.
Proof.
  intros Hnull Hbool Hint Hfloat Hstr Hlist Hdict. fix IH 1.
  intros [| | | | |l|d]; [done..| |].
  - apply Hlist. induction l as [|x l IHl]; constructor; [apply IH | exact IHl].
  - apply Hdict.
    induction d as [|[k x] d IHd]; constructor; [apply IH | exact IHd].
Qed.

(** [==] is reflexive on regular values. *)
Lemma py_eq_refl (v : json) : regular v = true → py_eq v v = true.
Proof.
  induction v as [|b|z|f|s|l IHl|d IHd] using json_nested_ind; intros Hreg.
  - done.
  - simpl. by apply bool_decide_eq_true.
  - simpl. by apply bool_decide_eq_true.
  - done.
  - simpl. by apply bool_decide_eq_true.
  - simpl in Hreg. induction IHl as [|x l Hx _ IH]; [done|].
    simpl in Hreg. apply andb_true_iff in Hreg as [Hrx Hrl].
    rewrite py_eq_JList_cons, Hx, IH by done. done.
  - simpl in Hreg. apply andb_true_iff in Hreg as [Hnd Hvals].
    apply bool_decide_eq_true in Hnd. rewrite forallb_forall in Hvals.
    rewrite Forall_forall in IHd.
    rewrite py_eq_JDict, bool_decide_eq_true_2 by done. simpl.
    apply forallb_forall. intros [k x] Hin. simpl.
    pose proof Hin as Hin'%list_elem_of_In.
    rewrite (assoc_NoDup k x d) by done.
    apply (IHd (k, x) Hin'), (Hvals (k, x) Hin).
Qed.

Lemma assoc_dict_set_eq k v d : assoc k (dict_set k v d) = Some v.
Proof.
  induction d as [|[k' v'] d IH]; simpl.
  - by rewrite bool_decide_eq_true_2.
  - case_bool_decide as Hk; simpl.
    + by rewrite bool_decide_eq_true_2.
    + by rewrite bool_decide_eq_false_2.
Qed.

Lemma assoc_dict_set_ne k k' v d :
  k ≠ k' → assoc k' (dict_set k v d) = assoc k' d.
Proof.
  intros Hne. induction d as [|[k0 v0] d IH]; simpl.
  - by rewrite bool_decide_eq_false_2.
  - case_bool_decide as Hk; simpl.
    + subst k0. by rewrite !bool_decide_eq_false_2.
    + by rewrite IH.
Qed.

(** The two parts of a four-letter language pair are no [terms] key. *)
Lemma langpair_codes (langpair : string) :
  String.length langpair = 4%nat →
  PyStr.take 2 langpair ≠ "terms" ∧ PyStr.drop 2 langpair ≠ "terms".
Proof.
  destruct langpair as [|a [|b [|c [|d [|e r]]]]]; try discriminate.
  intros _. split; discriminate.
Qed.

(** What the Consistency Checker reads in a copied record. *)
Lemma skeleton_fields src tgt mode translation d v :
  src ≠ tgt → src ≠ "terms" → tgt ≠ "terms" →
  assoc src d = Some v →
  (mem mode ["random"; "proper"] = false → terms_field d = JDict []) →
  ∃ do, skeleton src tgt mode translation (JDict d) = JDict do
        ∧ assoc src do = Some v ∧ terms_field do = terms_field d.
Proof.
  intros Hst Hs Ht Hv Hnoterm. unfold skeleton. rewrite Hv. cbv zeta.
  eexists. split; [done|].
  destruct (mem mode ["random"; "proper"]) eqn:Hmode; split.
  - by rewrite !assoc_dict_set_ne, assoc_dict_set_eq by done.
  - unfold terms_field at 1. by rewrite assoc_dict_set_eq.
  - by rewrite !assoc_dict_set_ne, assoc_dict_set_eq by done.
  - unfold terms_field at 1. rewrite !assoc_dict_set_ne by done.
    by rewrite Hnoterm.
Qed.

(** C9: an output file built by copying every record of its input file
    (source sentence kept, target sentence added, terms kept for the modes
    that have them) has as many records as the input file, the same source
    sentence and the same terms at every index, and passes the check. *)
Theorem copied_input_passes (output_list input_list : list string)
    (fname langpair mode : string) (ins : list json)
    (translations : list string) :
  index_neg (PyStr.split "." fname) 3 = Some langpair →
  index_neg (PyStr.split "." fname) 2 = Some mode →
  String.length langpair = 4%nat →
  PyStr.take 2 langpair ≠ PyStr.drop 2 langpair →
  length translations = length ins →
  Forall (source_record (PyStr.take 2 langpair) mode) ins →
  file_basic_check (find_file_by_prefix fname input_list true) true = Data ins →
  file_basic_check (find_file_by_prefix fname output_list false) true
  = Data (zip_with (skeleton (PyStr.take 2 langpair) (PyStr.drop 2 langpair)
                             mode) translations ins) →
  length (zip_with (skeleton (PyStr.take 2 langpair) (PyStr.drop 2 langpair)
                             mode) translations ins) = length ins
  ∧ (∀ idx i o,
       ins !! idx = Some i →
       zip_with (skeleton (PyStr.take 2 langpair) (PyStr.drop 2 langpair) mode)
                translations ins !! idx = Some o →
       getitem o (PyStr.take 2 langpair) = getitem i (PyStr.take 2 langpair)
       ∧ terms_or_empty o = terms_or_empty i)
  ∧ sample_check_file output_list input_list fname = Ok ().
Proof.
  intros Hlp Hmode Hlen Hne Htr Hins Hin Hout.
  destruct (langpair_codes langpair Hlen) as [Hsrc Htgt].
  set (src := PyStr.take 2 langpair) in *.
  set (tgt := PyStr.drop 2 langpair) in *.
  set (outs := zip_with (skeleton src tgt mode) translations ins) in *.
  assert (length outs = length ins) as Hcount.
  { unfold outs. rewrite length_zip_with. lia. }
  rewrite Forall_lookup in Hins.
  assert (∀ idx i o, ins !! idx = Some i → outs !! idx = Some o →
            ∃ di do v, i = JDict di ∧ o = JDict do
                       ∧ assoc src di = Some v ∧ assoc src do = Some v
                       ∧ terms_field do = terms_field di
                       ∧ regular v = true
                       ∧ regular (terms_field di) = true) as Hcopy.
  { intros idx i o Hi Ho. unfold outs in Ho.
    apply lookup_zip_with_Some in Ho as (t & i' & -> & Ht & Hi').
    assert (i' = i) as -> by congruence.
    destruct (Hins idx i Hi) as (di & v & -> & Hv & Hrv & Hrt & Hnoterm).
    destruct (skeleton_fields src tgt mode t di v)
      as (do & -> & Hvo & Hto); try done.
    by exists di, do, v. }
  split_and!; [done| |].
  - intros idx i o Hi Ho.
    destruct (Hcopy idx i o Hi Ho)
      as (di & do & v & -> & -> & Hvi & Hvo & Hterms & _).
    rewrite !terms_or_empty_dict. simpl. by rewrite Hvi, Hvo, Hterms.
  - unfold sample_check_file. rewrite Hlp, Hin, Hout. simpl.
    unfold sample_check_data. simpl.
    rewrite bool_decide_eq_true_2 by done. simpl.
    apply for_each_Ok, Forall_forall. intros idx [_ Hidx]%elem_of_seq.
    destruct (lookup_lt_is_Some_2 ins idx) as [i Hi]; [lia|].
    destruct (lookup_lt_is_Some_2 outs idx) as [o Ho]; [lia|].
    destruct (Hcopy idx i o Hi Ho)
      as (di & do & v & -> & -> & Hvi & Hvo & Hterms & Hrv & Hrt).
    fold src.
    rewrite (sample_check_record_dicts _ _ _ _ _ _ _ _ _ Hi Ho Hvi Hvo).
    by rewrite Hterms, !py_eq_refl.
Qed.

(** ** The Schema Validator *)

Lemma for_each_enumerate_from {A} (body : nat * A → res unit) (l : list A)
    (n : nat) :
  for_each (zip (seq n (length l)) l) body = Ok ()
  ↔ ∀ i x, l !! i = Some x → body ((n + i)%nat, x) = Ok ().
Proof.
  revert n. induction l as [|x l IH]; intros n; simpl.
  - split; [intros _ i y Hi; by rewrite lookup_nil in Hi | done].
  - destruct (body (n, x)) as [[]|e] eqn:Hx; simpl.
    + rewrite IH. split.
      * intros Hl [|i] y Hi; simplify_eq/=.
        { by rewrite Nat.add_0_r. }
        rewrite Nat.add_succ_r. by apply (Hl i).
      * intros Hl i y Hi. specialize (Hl (S i) y Hi).
        by rewrite Nat.add_succ_r in Hl.
    + split; [done|]. intros Hl. specialize (Hl 0%nat x eq_refl).
      rewrite Nat.add_0_r in Hl. congruence.
Qed.

Lemma for_each_enumerate_Ok {A} (body : nat * A → res unit) (l : list A) :
  for_each (enumerate l) body = Ok ()
  ↔ ∀ idx x, l !! idx = Some x → body (idx, x) = Ok ().
Proof. apply (for_each_enumerate_from body l 0). Qed.

Lemma for_each_enumerate_from_failure {A} (body : nat * A → res unit)
    (l : list A) (n idx : nat) (x : A) e :
  l !! idx = Some x →
  (∀ j y, (j < idx)%nat → l !! j = Some y → body ((n + j)%nat, y) = Ok ()) →
  body ((n + idx)%nat, x) = Raise e →
  for_each (zip (seq n (length l)) l) body = Raise e.
Proof.
  revert n idx. induction l as [|y l IH]; intros n idx Hidx Hbefore Hx.
  - by rewrite lookup_nil in Hidx.
  - simpl. destruct idx as [|idx]; simplify_eq/=.
    + rewrite Nat.add_0_r in Hx. by rewrite Hx.
    + specialize (Hbefore 0%nat y ltac:(lia) eq_refl) as Hy.
      rewrite Nat.add_0_r in Hy. rewrite Hy. simpl.
      apply (IH (S n) idx); [done| |].
      * intros j z Hj Hz. specialize (Hbefore (S j) z ltac:(lia) Hz).
        by rewrite Nat.add_succ_r in Hbefore.
      * by rewrite Nat.add_succ_r in Hx.
Qed.

Lemma for_each_enumerate_first_failure {A} (body : nat * A → res unit)
    (l : list A) (idx : nat) (x : A) e :
  l !! idx = Some x →
  (∀ j y, (j < idx)%nat → l !! j = Some y → body (j, y) = Ok ()) →
  body (idx, x) = Raise e →
  for_each (enumerate l) body = Raise e.
Proof. apply (for_each_enumerate_from_failure body l 0). Qed.

Lemma key_list_expected (src tgt mode : string) :
  list_to_set (key_list src tgt mode) = expected_keys src tgt mode.
Proof.
  clear listdir json_loads read_lines.
  unfold key_list, expected_keys, mem.
  assert (mode ∈ ["random"; "proper"] ↔ mode = "random" ∨ mode = "proper")
    as Hmode by set_solver.
  do 2 case_bool_decide; try tauto; set_solver.
Qed.

Lemma datapoint_record_check_keys src tgt mode track ofn idx (r : json) :
  (datapoint_record_check src tgt mode track ofn idx r = Ok () →
   ∃ d, r = JDict d ∧ list_to_set d.*1 = expected_keys src tgt mode)
  ∧ (∀ d, r = JDict d → list_to_set d.*1 ≠ expected_keys src tgt mode →
     datapoint_record_check src tgt mode track ofn idx r
     = Raise (AssertionError
                (SchemaError ofn idx (key_list src tgt mode) d.*1))).
Proof.
  unfold datapoint_record_check, set_eq. rewrite key_list_expected. split.
  - destruct r as [| | | | | |d]; try discriminate. simpl.
    case_bool_decide as Hset; [|discriminate]. eauto.
  - intros d -> Hne. simpl. by rewrite bool_decide_eq_false_2.
Qed.

(** C6: in a file that was read, every record passes only with exactly the
    key set of the file's mode (the two language codes of the file name,
    and [terms] for the modes [random] and [proper]); the first record with
    an extra or a missing key raises the error that reports the expected
    keys and the keys of the record. *)
Theorem key_set_is_exact (output_list : list string) (track : Z)
    (fname langpair mode : string) (records : list json) :
  index_neg (PyStr.split "." fname) 3 = Some langpair →
  index_neg (PyStr.split "." fname) 2 = Some mode →
  file_basic_check (find_file_by_prefix fname output_list false) true
  = Data records →
  (datapoint_check_file output_list track fname = Ok () →
   ∀ r, r ∈ records →
     ∃ d, r = JDict d
          ∧ list_to_set d.*1
            = expected_keys (PyStr.take 2 langpair) (PyStr.drop 2 langpair) mode)
  ∧ (∀ idx d k,
       records !! idx = Some (JDict d) →
       (k ∈ d.*1
        ∧ k ∉ expected_keys (PyStr.take 2 langpair) (PyStr.drop 2 langpair) mode)
       ∨ (k ∈ expected_keys (PyStr.take 2 langpair) (PyStr.drop 2 langpair) mode
          ∧ k ∉ d.*1) →
       (∀ j r, (j < idx)%nat → records !! j = Some r →
          datapoint_record_check (PyStr.take 2 langpair)
            (PyStr.drop 2 langpair) mode track
            (find_file_by_prefix fname output_list false) j r = Ok ()) →
       datapoint_check_file output_list track fname
       = Raise (AssertionError
                  (SchemaError (find_file_by_prefix fname output_list false) idx
                     (key_list (PyStr.take 2 langpair) (PyStr.drop 2 langpair)
                               mode)
                     d.*1))).
Proof.
  clear listdir.
  intros Hlp Hmode Hdata. unfold datapoint_check_file.
  rewrite Hlp, Hmode, Hdata. simpl. split.
  - intros Hok r [idx Hr]%list_elem_of_lookup.
    rewrite for_each_enumerate_Ok in Hok. specialize (Hok idx r Hr).
    by apply datapoint_record_check_keys in Hok.
  - intros idx d k Hr Hk Hbefore.
    apply (for_each_enumerate_first_failure _ _ idx (JDict d)); [done..|].
    apply datapoint_record_check_keys; [done|].
    intros Hset. rewrite <-Hset in Hk. set_solver.
Qed.

(** *** The values of the terminology *)

(** [check_dict_format] looks at the type of each value and at nothing
    below it: for track 2 every [list] is accepted. *)
Lemma check_dict_format_loop_types terms track expected ks :
  track2dtype track = Ok expected →
  Forall (λ k, ∃ v, getitem terms k = Ok v ∧ type_of v = expected) ks →
  check_dict_format_loop terms track ks = Ok (true, None).
Proof.
  intros Htrack. induction 1 as [|k ks (v & Hk & Hv) _ IH]; simpl; [done|].
  rewrite Hk, Htrack. simpl. by rewrite bool_decide_eq_false_2 by naive_solver.
Qed.

Lemma check_dict_format_lists (d : list (string * json)) :
  NoDup d.*1 → Forall (λ kv, type_of kv.2 = TList) d →
  check_dict_format (JDict d) 2 = Ok (true, None).
Proof.
  intros Hnd Hall. unfold check_dict_format. simpl.
  apply (check_dict_format_loop_types _ _ TList); [done|].
  apply Forall_fmap, Forall_forall. intros [k v] Hin. simpl.
  exists v. rewrite Forall_forall in Hall. split; [|by apply (Hall (k, v))].
  by rewrite (assoc_NoDup k v d).
Qed.

(** ** The Naming Analyzer and the Completeness Checker *)

Lemma split_nonempty (c : ascii) (s : string) : PyStr.split c s ≠ [].
Proof.
  destruct s as [|a r]; simpl; [done|].
  case_bool_decide; [done|]. by destruct (PyStr.split c r).
Qed.

Lemma string_app_nil (s : string) : "" +:+ s = s.
Proof. reflexivity. Qed.

Lemma string_app_cons (x : ascii) (a s : string) :
  String x a +:+ s = String x (a +:+ s).
Proof. reflexivity. Qed.

Lemma split_app (c : ascii) (a b : string) :
  PyStr.split c (a +:+ String c b) = PyStr.split c a ++ PyStr.split c b.
Proof.
  induction a as [|x a IH].
  - rewrite string_app_nil. simpl. by rewrite bool_decide_eq_true_2.
  - rewrite string_app_cons. simpl. case_bool_decide; rewrite IH; [done|].
    pose proof (split_nonempty c a). by destruct (PyStr.split c a).
Qed.

Lemma string_app_assoc (a b c : string) : (a +:+ b) +:+ c = a +:+ (b +:+ c).
Proof.
  induction a as [|x a IH]; [done|]. by rewrite !string_app_cons, IH.
Qed.

Lemma index_neg_app {A} (l k : list A) (n : nat) :
  (1 ≤ n ≤ length k)%nat → index_neg (l ++ k) n = index_neg k n.
Proof.
  intros Hn. unfold index_neg. rewrite length_app.
  rewrite !bool_decide_eq_true_2 by lia.
  rewrite lookup_app_r by lia. f_equal. lia.
Qed.

(** The third token from the end of an expected file name of track 1 is
    its language pair. *)
Lemma three_modes_pair (sysname p n : string) :
  p ∈ ["enes"; "enru"; "ende"] → n ∈ three_modes (sysname +:+ "." +:+ p) →
  index_neg (PyStr.split "." n) 3 = Some p.
Proof.
  intros Hp Hn. unfold three_modes in Hn.
  assert (∃ rest, n = sysname +:+ String "." rest
                  ∧ index_neg (PyStr.split "." rest) 3 = Some p
                  ∧ length (PyStr.split "." rest) = 3%nat)
    as (rest & -> & Hrest & Hlen).
  { repeat (apply elem_of_cons in Hn as [->|Hn]);
      [..|by apply elem_of_nil in Hn];
      rewrite string_app_assoc; eexists; (split; [reflexivity|]);
      repeat (apply elem_of_cons in Hp as [->|Hp]);
      try (by apply elem_of_nil in Hp); by vm_compute. }
  rewrite split_app, index_neg_app by lia. done.
Qed.


(** The language pairs found in the submitted file names. *)
Lemma candidates_mapM (fnames : list string) :
  Forall (λ f, is_Some (index_neg (PyStr.split "." f) 3)) fnames →
  mapM (λ f, or_raise (index_neg (PyStr.split "." f) 3) IndexError) fnames
  = Ok (omap (λ f, index_neg (PyStr.split "." f) 3) fnames).
Proof.
  intros Hall. apply mapM_or_raise.
  induction Hall as [|f l [p Hp] _ IH]; simpl; [constructor|].
  rewrite Hp. by constructor.
Qed.

Lemma file_year_pair_check_unfold fnames sysname track :
  Forall (λ f, is_Some (index_neg (PyStr.split "." f) 3)) fnames →
  file_year_pair_check fnames sysname track
  = for_each (expected_fnames
                (list_to_set (omap (λ f, index_neg (PyStr.split "." f) 3)
                                   fnames)) sysname track)
             (λ fname, assert (mem fname fnames) (MissingFileError fname)).
Proof.
  intros Hall. unfold file_year_pair_check. by rewrite candidates_mapM.
Qed.

Lemma elem_of_candidates (fnames : list string) (p : string) :
  p ∈ (list_to_set (omap (λ f, index_neg (PyStr.split "." f) 3) fnames)
       : gset string)
  ↔ ∃ f, f ∈ fnames ∧ index_neg (PyStr.split "." f) 3 = Some p.
Proof. by rewrite elem_of_list_to_set, list_elem_of_omap. Qed.

Lemma presence_loop_Ok (expected fnames : list string) :
  for_each expected (λ n, assert (mem n fnames) (MissingFileError n)) = Ok ()
  ↔ ∀ n, n ∈ expected → n ∈ fnames.
Proof.
  clear listdir json_loads read_lines.
  rewrite for_each_Ok, Forall_forall. apply forall_proper. intros n.
  unfold assert, mem. case_bool_decide; naive_solver.
Qed.


Lemma elem_of_expected_track1 (S : gset string) (sysname n : string) :
  n ∈ expected_fnames S sysname 1
  ↔ ∃ p, p ∈ ["enes"; "enru"; "ende"] ∧ p ∈ S
         ∧ n ∈ three_modes (sysname +:+ "." +:+ p).
Proof.
  unfold expected_fnames. rewrite !bool_decide_eq_true_2 by done.
  rewrite list_elem_of_bind. split.
  - intros (p & Hn & [HS Hp]%list_elem_of_filter). eauto.
  - intros (p & Hp & HS & Hn). exists p. split; [done|].
    by apply list_elem_of_filter.
Qed.



Lemma filter_ext_elem {A} (P Q : A → Prop) `{!∀ x, Decision (P x)}
    `{!∀ x, Decision (Q x)} (l : list A) :
  (∀ x, x ∈ l → P x ↔ Q x) → filter P l = filter Q l.
Proof.
  induction l as [|x l IH]; intros Hext; [done|].
  rewrite !filter_cons.
  rewrite IH by (intros y Hy; apply Hext; by right).
  destruct (decide (P x)) as [HP|HP], (decide (Q x)) as [HQ|HQ]; try done.
  - destruct HQ. by apply (Hext x), HP; left.
  - destruct HP. by apply (Hext x), HQ; left.
Qed.

Lemma for_each_ext {A} (l : list A) (f g : A → res unit) :
  (∀ x, x ∈ l → f x = g x) → for_each l f = for_each l g.
Proof.
  induction l as [|x l IH]; intros Hext; simpl; [done|].
  rewrite (Hext x) by left. rewrite IH; [done|].
  intros y Hy. apply Hext. by right.
Qed.

Lemma expected_track1_ext (S1 S2 : gset string) (sysname : string) :
  (∀ p, p ∈ ["enes"; "enru"; "ende"] → p ∈ S1 ↔ p ∈ S2) →
  expected_fnames S1 sysname 1 = expected_fnames S2 sysname 1.
Proof.
  intros Hext. unfold expected_fnames. rewrite !bool_decide_eq_true_2 by done.
  by rewrite (filter_ext_elem (λ p, p ∈ S1) (λ p, p ∈ S2)).
Qed.


(** What the script does with a language pair outside enes, enru, ende (the
    defect behind C10, in general): the naming check of track 1 accepts
    every name of four tokens that ends in a mode and [jsonl], whatever its
    language pair; every name the Completeness Checker expects has a pair
    among enes, enru, ende that was submitted; and the submitted names with
    any other pair have no effect on its result. *)
Theorem unlisted_pairs_are_ignored (fnames : list string) (sysname : string) :
  Forall (λ f, is_Some (index_neg (PyStr.split "." f) 3)) fnames →
  (∀ fname,
     file_naming_check fname 1 = Ok ()
     ↔ ∃ s p m, PyStr.split "." fname = [s; p; m; "jsonl"] ∧ m ∈ modes)
  ∧ (∀ n,
       n ∈ expected_fnames
             (list_to_set (omap (λ f, index_neg (PyStr.split "." f) 3) fnames))
             sysname 1 →
       ∃ p, p ∈ ["enes"; "enru"; "ende"]
            ∧ index_neg (PyStr.split "." n) 3 = Some p
            ∧ ∃ f, f ∈ fnames ∧ index_neg (PyStr.split "." f) 3 = Some p)
  ∧ file_year_pair_check (filter (λ f, listed_pair f = true) fnames) sysname 1
    = file_year_pair_check fnames sysname 1.
Proof.
  intros Htokens.
  assert (∀ f p, p ∈ ["enes"; "enru"; "ende"] →
                 index_neg (PyStr.split "." f) 3 = Some p →
                 listed_pair f = true) as Hlisted.
  { intros f p Hp Hf. unfold listed_pair, mem. rewrite Hf. simpl.
    by apply bool_decide_eq_true. }
  split_and!.
  - intros fname. unfold file_naming_check.
    rewrite bool_decide_eq_true_2 by done. unfold assert, index_neg, mem.
    destruct (PyStr.split "." fname) as [|s [|p [|m [|j [|x l]]]]] eqn:Hsplit;
      simpl; try (split; [discriminate | by intros (?&?&?&?&?)]).
    split.
    + repeat case_bool_decide; try discriminate. intros _.
      exists s, p, m. by simplify_eq/=.
    + intros (s' & p' & m' & [= -> -> -> ->] & Hm).
      by rewrite !bool_decide_eq_true_2.
  - intros n (p & Hp & Hsub%elem_of_candidates & Hn)%elem_of_expected_track1.
    exists p. split_and!; [done| |done]. by apply (three_modes_pair sysname).
  - assert (Forall (λ f, is_Some (index_neg (PyStr.split "." f) 3))
              (filter (λ f, listed_pair f = true) fnames)) as Htokens'.
    { apply Forall_forall. intros f [_ Hf]%list_elem_of_filter.
      rewrite Forall_forall in Htokens. auto. }
    rewrite !file_year_pair_check_unfold by done.
    rewrite (expected_track1_ext _
               (list_to_set (omap (λ f, index_neg (PyStr.split "." f) 3)
                                  fnames))).
    + apply for_each_ext.
      intros n (p & Hp & _ & Hn)%elem_of_expected_track1.
      f_equal. unfold mem. apply bool_decide_ext.
      rewrite list_elem_of_filter. split; [by intros [_ ?]|].
      intros Hin. split; [|done].
      eapply Hlisted; [done|]. by apply (three_modes_pair sysname).
    + intros p Hp. rewrite !elem_of_candidates. split.
      * intros (f & [_ Hf]%list_elem_of_filter & Hpair). eauto.
      * intros (f & Hf & Hpair). exists f. split; [|done].
        apply list_elem_of_filter. eauto.
Qed.

Lemma file_naming_check_Raise (fname : string) (track : Z) e :
  file_naming_check fname track = Raise e → e = AssertionError (NamingError fname).
Proof.
  unfold file_naming_check, assert.
  repeat case_bool_decide; repeat case_match; congruence.
Qed.


(** * Further properties of the script *)

(** ** File names *)

Lemma string_length_app (a b : string) :
  String.length (a +:+ b) = (String.length a + String.length b)%nat.
Proof.
  induction a as [|x a IH]; [done|]. rewrite string_app_cons. simpl.
  by rewrite IH.
Qed.

Lemma drop_length_app (a b : string) :
  PyStr.drop (String.length a) (a +:+ b) = b.
Proof. induction a as [|x a IH]; [by destruct b|]. by rewrite string_app_cons. Qed.

Lemma take_drop_app (n : nat) (s : string) :
  PyStr.take n s +:+ PyStr.drop n s = s.
Proof.
  revert s. induction n as [|n IH]; intros [|x s]; simpl; try done.
  by rewrite string_app_cons, IH.
Qed.

Lemma endswith_app (a b : string) : PyStr.endswith (a +:+ b) b = true.
Proof.
  unfold PyStr.endswith. rewrite string_length_app.
  rewrite bool_decide_eq_true_2 by lia. simpl. apply bool_decide_eq_true.
  replace (String.length a + String.length b - String.length b)%nat
    with (String.length a) by lia.
  apply drop_length_app.
Qed.

Lemma endswith_inv (s suf : string) :
  PyStr.endswith s suf = true → ∃ a, s = a +:+ suf.
Proof.
  unfold PyStr.endswith. intros [_ Hdrop%bool_decide_eq_true]%andb_true_iff.
  revert Hdrop. generalize (String.length s - String.length suf)%nat.
  intros n <-. exists (PyStr.take n s). by rewrite take_drop_app.
Qed.

Lemma endswith_trans (s t u : string) :
  PyStr.endswith s t = true → PyStr.endswith t u = true →
  PyStr.endswith s u = true.
Proof.
  intros [a ->]%endswith_inv [b ->]%endswith_inv.
  rewrite <-string_app_assoc. apply endswith_app.
Qed.

(** Joining the tokens of a name with the separator gives the name back. *)
Lemma join_cons (sep x y : string) (l : list string) :
  PyStr.join sep (x :: y :: l) = x +:+ sep +:+ PyStr.join sep (y :: l).
Proof. reflexivity. Qed.

Lemma join_split (c : ascii) (s : string) :
  PyStr.join (String c "") (PyStr.split c s) = s.
Proof.
  induction s as [|x s IH]; [done|]. cbn [PyStr.split].
  pose proof (split_nonempty c s) as Hne.
  destruct (PyStr.split c s) as [|t ts]; [done|].
  case_bool_decide as Hx.
  - subst x. by rewrite join_cons, IH.
  - destruct ts as [|t' ts].
    + cbn [PyStr.join] in *. by subst t.
    + rewrite join_cons in *. by rewrite string_app_cons, IH.
Qed.

Lemma join_last (sep : string) (l : list string) :
  l ≠ [] → ∃ a, PyStr.join sep l = a +:+ List.last l "".
Proof.
  induction l as [|x l IH]; [done|]. intros _. destruct l as [|y l].
  - by exists "".
  - destruct IH as [a Ha]; [done|]. exists (x +:+ sep +:+ a).
    rewrite join_cons, Ha. by rewrite !string_app_assoc.
Qed.

Lemma endswith_last_split (c : ascii) (s : string) :
  PyStr.endswith s (List.last (PyStr.split c s) "") = true.
Proof.
  destruct (join_last (String c "") (PyStr.split c s)) as [a Ha].
  { apply split_nonempty. }
  rewrite join_split in Ha. rewrite Ha at 1. apply endswith_app.
Qed.

Lemma join_app_tokens (sep : string) (l : list string) (m n : string) :
  l ≠ [] →
  PyStr.join sep (l ++ [m; n])
  = PyStr.join sep l +:+ sep +:+ m +:+ sep +:+ n.
Proof.
  induction l as [|x l IH]; [done|]. intros _. destruct l as [|y l].
  - done.
  - change ((x :: y :: l) ++ [m; n]) with (x :: y :: (l ++ [m; n])).
    rewrite !join_cons.
    change (y :: l ++ [m; n]) with ((y :: l) ++ [m; n]).
    rewrite IH by done. by rewrite !string_app_assoc.
Qed.

Lemma file_naming_check_Ok_iff (fname : string) (track : Z) :
  track = 1 ∨ track = 2 →
  file_naming_check fname track = Ok ()
  ↔ ∃ stem m,
      PyStr.split "." fname = stem ++ [m; "jsonl"]
      ∧ length stem = Z.to_nat (track + 1) ∧ m ∈ modes
      ∧ fname = PyStr.join "." stem +:+ "." +:+ m +:+ "." +:+ "jsonl".
Proof.
  intros Htrack. pose proof (join_split "." fname) as Hjoin.
  unfold file_naming_check, assert, index_neg, mem.
  destruct (PyStr.split "." fname) as [|a [|b [|c [|d [|x [|y l]]]]]];
    destruct Htrack as [-> | ->]; simpl;
    try (split; [discriminate|]; intros (stem & m & Hsplit & Hlen & _);
         apply (f_equal length) in Hsplit; rewrite length_app in Hsplit;
         simpl in *; lia).
  - split.
    + repeat case_bool_decide; try discriminate. intros _.
      exists [a; b], c. simplify_eq/=. split_and!; [done..|].
      by apply (join_app_tokens "." [a; b]).
    + intros (stem & m & Hsplit & Hlen & Hm & _).
      destruct stem as [|s1 [|s2 [|s3 stem]]]; simplify_eq/=.
      by rewrite !bool_decide_eq_true_2.
  - split.
    + repeat case_bool_decide; try discriminate. intros _.
      exists [a; b; c], d. simplify_eq/=. split_and!; [done..|].
      by apply (join_app_tokens "." [a; b; c]).
    + intros (stem & m & Hsplit & Hlen & Hm & _).
      destruct stem as [|s1 [|s2 [|s3 [|s4 stem]]]]; simplify_eq/=.
      by rewrite !bool_decide_eq_true_2.
Qed.

(** X1: the naming check by track.  For track 1 and track 2 a name passes
    exactly when it has a stem of two, respectively three, tokens followed
    by a mode and [jsonl]; the name is then the stem, the mode and [jsonl]
    joined by dots, and no token of the stem is looked at.  For any other
    track every name passes.  A name that does not pass raises the naming
    error of that name. *)
Theorem naming_check_by_track (fname : string) (track : Z) :
  (track = 1 ∨ track = 2 →
   file_naming_check fname track = Ok ()
   ↔ ∃ stem m,
       PyStr.split "." fname = stem ++ [m; "jsonl"]
       ∧ length stem = Z.to_nat (track + 1) ∧ m ∈ modes
       ∧ fname = PyStr.join "." stem +:+ "." +:+ m +:+ "." +:+ "jsonl")
  ∧ (track ≠ 1 → track ≠ 2 → file_naming_check fname track = Ok ())
  ∧ (∀ e, file_naming_check fname track = Raise e →
          e = AssertionError (NamingError fname)).
Proof.
  split_and!.
  - apply file_naming_check_Ok_iff.
  - intros H1 H2. unfold file_naming_check.
    by rewrite !bool_decide_eq_false_2.
  - apply file_naming_check_Raise.
Qed.

(** ** Pairing a file name with a path *)

(** X2: the name looked for among the input files is the output name
    without its system name and the dot behind it: for a system name without
    a dot, looking up [sysname.rest] as an input name is looking up [rest]. *)
Theorem input_lookup_strips_system_name (sysname rest : string)
    (input_list : list string) :
  PyStr.split "." sysname = [sysname] →
  find_file_by_prefix (sysname +:+ "." +:+ rest) input_list true
  = find_file_by_prefix rest input_list false.
Proof.
  intros Hsys. unfold find_file_by_prefix.
  change (sysname +:+ "." +:+ rest) with (sysname +:+ String "." rest).
  rewrite split_app, Hsys.
  change (drop 1 ([sysname] ++ PyStr.split "." rest))
    with (PyStr.split "." rest).
  by rewrite (join_split "." rest).
Qed.

Lemma find_file_by_prefix_Some (filename : string) (file_list : list string)
    (file : string) :
  find_file_by_prefix filename file_list false = Some file →
  file ∈ file_list ∧ PyStr.endswith file filename = true.
Proof.
  unfold find_file_by_prefix. intros [Hin Hends]%find_some.
  by apply list_elem_of_In in Hin.
Qed.

Lemma find_output_of_path (output_list : list string) (path : string) :
  path ∈ output_list →
  ∃ found,
    find_file_by_prefix (List.last (PyStr.split path_sep path) "")
                        output_list false = Some found
    ∧ found ∈ output_list
    ∧ PyStr.endswith found (List.last (PyStr.split path_sep path) "") = true.
Proof.
  intros Hpath.
  destruct (find_file_by_prefix _ output_list false) as [found|] eqn:Hfind.
  - exists found. split; [done|]. by apply find_file_by_prefix_Some.
  - rewrite find_file_by_prefix_None in Hfind.
    specialize (Hfind path Hpath). simpl in Hfind.
    by rewrite endswith_last_split in Hfind.
Qed.

(** X3: an output file is always found for the name of a listed path: the
    lookup of the last component of a path of the list returns a path of
    the list that ends with that name, never [None]; it is the first such
    path of the list, which need not be the path the name came from. *)
Theorem output_lookup_succeeds (output_list : list string) (path : string) :
  path ∈ output_list →
  ∃ before found after,
    find_file_by_prefix (List.last (PyStr.split path_sep path) "")
                        output_list false = Some found
    ∧ output_list = before ++ found :: after
    ∧ PyStr.endswith found (List.last (PyStr.split path_sep path) "") = true
    ∧ Forall (λ p, PyStr.endswith p (List.last (PyStr.split path_sep path) "")
                   = false) before.
Proof.
  intros (found & Hfind & _)%find_output_of_path.
  revert Hfind. unfold find_file_by_prefix.
  generalize (List.last (PyStr.split path_sep path) "") as name. intros name.
  induction output_list as [|p l IH]; simpl; [done|].
  destruct (PyStr.endswith p name) eqn:Hp.
  - intros [= ->]. by exists [], found, l.
  - intros (before & g & after & Hg & -> & Hends & Hbefore)%IH.
    exists (p :: before), g, after. split_and!; [done..|]. by constructor.
Qed.


(** ** The stage of the file names as a whole *)

Lemma truthy_file_basic_check (filepath : option string) :
  truthy (file_basic_check filepath false) = true
  ↔ ∃ data, file_basic_check filepath true = Data data.
Proof.
  unfold file_basic_check. destruct (filepath ≫= read_lines) as [lines|].
  - destruct (mapM json_loads lines) as [data|]; simpl.
    + split; eauto.
    + split; [done | by intros [? ?]].
  - split; [done | by intros [? ?]].
Qed.

Lemma sysnames_singleton (names : list string) (sysname : string) :
  (list_to_set names : gset string) = {[sysname]}
  ↔ (∃ n, n ∈ names) ∧ ∀ n, n ∈ names → n = sysname.
Proof.
  clear path_sep read_lines json_loads listdir. split.
  - intros Hset. split.
    + exists sysname. apply (elem_of_list_to_set (C:=gset string)).
      rewrite Hset. by apply elem_of_singleton.
    + intros n Hn%(elem_of_list_to_set (C:=gset string)).
      rewrite Hset in Hn. by apply elem_of_singleton in Hn.
  - intros [[n0 Hn0] Hall]. apply leibniz_equiv, set_equiv. intros n.
    rewrite elem_of_list_to_set, elem_of_singleton. split; [apply Hall|].
    intros ->. by rewrite <-(Hall n0 Hn0).
Qed.

Lemma file_check_unfold (output_list : list string) (track : Z) :
  file_check output_list track
  = (for_each (jsonl_fnames output_list) (λ fname, file_naming_check fname track);;
     let sysnames : gset string :=
       list_to_set ((λ f, List.hd "" (PyStr.split "." f))
                      <$> jsonl_fnames output_list) in
     assert (bool_decide (size sysnames = 1%nat))
            (SystemNameConflictError (elements sysnames));;
     sysname ← or_raise (elements sysnames !! 0%nat) IndexError;
     file_year_pair_check (jsonl_fnames output_list) sysname track;;
     for_each (filter (λ f, PyStr.endswith f ".jsonl" = true) output_list)
       (λ filepath,
          assert (truthy (file_basic_check (Some filepath) false))
                 (FormatError filepath));;
     Ok "CHECK FILENAMES: DONE").
Proof. reflexivity. Qed.

Lemma file_check_Ok_iff (output_list : list string) (track : Z)
    (msg : string) :
  file_check output_list track = Ok msg
  ↔ msg = "CHECK FILENAMES: DONE"
    ∧ Forall (λ f, file_naming_check f track = Ok ()) (jsonl_fnames output_list)
    ∧ (∃ sysname,
         (∃ f, f ∈ jsonl_fnames output_list)
         ∧ (∀ f, f ∈ jsonl_fnames output_list →
                 List.hd "" (PyStr.split "." f) = sysname)
         ∧ file_year_pair_check (jsonl_fnames output_list) sysname track = Ok ())
    ∧ (∀ path, path ∈ output_list → PyStr.endswith path ".jsonl" = true →
               ∃ data, file_basic_check (Some path) true = Data data).
Proof.
  rewrite file_check_unfold. cbv zeta.
  set (names := (λ f, List.hd "" (PyStr.split "." f)) <$> jsonl_fnames output_list).
  assert (∀ sysname,
            (list_to_set names : gset string) = {[sysname]}
            ↔ (∃ f, f ∈ jsonl_fnames output_list)
              ∧ ∀ f, f ∈ jsonl_fnames output_list →
                     List.hd "" (PyStr.split "." f) = sysname) as Hsys.
  { intros sysname. rewrite sysnames_singleton. unfold names. split.
    - intros [[n [f [-> Hf]]%list_elem_of_fmap] Hall]. split; [eauto|].
      intros f' Hf'. apply Hall, list_elem_of_fmap. eauto.
    - intros [[f Hf] Hall]. split.
      + eexists. apply list_elem_of_fmap. eauto.
      + intros n [f' [-> Hf']]%list_elem_of_fmap. auto. }
  assert (for_each (filter (λ f, PyStr.endswith f ".jsonl" = true) output_list)
            (λ filepath,
               assert (truthy (file_basic_check (Some filepath) false))
                      (FormatError filepath)) = Ok ()
          ↔ ∀ path, path ∈ output_list → PyStr.endswith path ".jsonl" = true →
                    ∃ data, file_basic_check (Some path) true = Data data)
    as Hformat.
  { rewrite for_each_Ok, Forall_forall. split.
    - intros Hall path Hin Hends. apply truthy_file_basic_check.
      specialize (Hall path). rewrite list_elem_of_filter in Hall.
      unfold assert in Hall. destruct (truthy _); [done|].
      by specialize (Hall (conj Hends Hin)).
    - intros Hall path [Hends Hin]%list_elem_of_filter.
      specialize (Hall path Hin Hends). apply truthy_file_basic_check in Hall.
      unfold assert. by rewrite Hall. }
  split.
  - destruct (for_each (jsonl_fnames output_list) _) as [[]|e] eqn:Hnaming;
      [simpl|done].
    case_bool_decide as Hsize; [simpl|done].
    apply size_1_elem_of in Hsize as [sysname Hset%leibniz_equiv].
    rewrite Hset, elements_singleton. simpl.
    destruct (file_year_pair_check _ sysname track) as [[]|e] eqn:Hpairs;
      [simpl|done].
    destruct (for_each (filter _ output_list) _) as [[]|e] eqn:Hfiles;
      [simpl|done].
    intros [= <-]. split_and!; [done|by apply for_each_Ok| |by apply Hformat].
    exists sysname. apply Hsys in Hset as [? ?]. by split_and!.
  - intros (-> & Hnaming%for_each_Ok & (sysname & Hne & Hall & Hpairs)
            & Hfiles%Hformat).
    assert ((list_to_set names : gset string) = {[sysname]}) as Hset
      by by apply Hsys.
    rewrite Hnaming, Hset, size_singleton, elements_singleton. simpl.
    rewrite Hpairs. simpl. by rewrite Hfiles.
Qed.

(** X4: the stage passes exactly when every [.jsonl] name passes the naming
    check, there is at least one such name and all of them start with the
    same system name, the Completeness Checker passes for that system name,
    and every [.jsonl] file is read by the Record Reader; the paths that do
    not end in [.jsonl] play no part. *)
Theorem file_check_passes_iff (output_list : list string) (track : Z)
    (msg : string) :
  file_check output_list track = Ok msg
  ↔ msg = "CHECK FILENAMES: DONE"
    ∧ Forall (λ f, file_naming_check f track = Ok ()) (jsonl_fnames output_list)
    ∧ (∃ sysname,
         (∃ f, f ∈ jsonl_fnames output_list)
         ∧ (∀ f, f ∈ jsonl_fnames output_list →
                 List.hd "" (PyStr.split "." f) = sysname)
         ∧ file_year_pair_check (jsonl_fnames output_list) sysname track = Ok ())
    ∧ (∀ path, path ∈ output_list → PyStr.endswith path ".jsonl" = true →
               ∃ data, file_basic_check (Some path) true = Data data).
Proof. apply file_check_Ok_iff. Qed.

Lemma filter_none {A} (P : A → Prop) `{!∀ x, Decision (P x)} (l : list A) :
  (∀ x, x ∈ l → ¬ P x) → filter P l = [].
Proof.
  induction l as [|x l IH]; intros Hall; [done|].
  rewrite filter_cons_False by (apply Hall; left).
  apply IH. intros y Hy. apply Hall. by right.
Qed.

(** X5: a directory without any [.jsonl] file fails the stage of the file
    names, with the error on inconsistent system names and an empty list of
    names, whereas the two later stages, run on it, have nothing to check
    and pass. *)
Theorem empty_submission (output_list input_list : list string) (track : Z) :
  (∀ path, path ∈ output_list → PyStr.endswith path ".jsonl" = false) →
  file_check output_list track
  = Raise (AssertionError (SystemNameConflictError []))
  ∧ sample_check output_list input_list
    = Ok "CHECK CONSISTENCY WITH SOURCE DATA: DONE"
  ∧ datapoint_check output_list track
    = Ok "CHECK VALIDITY OF DATA POINTS: DONE".
Proof.
  intros Hnone.
  assert (jsonl_fnames output_list = []) as Hnames.
  { unfold jsonl_fnames. rewrite filter_none; [done|].
    intros path Hin. rewrite (Hnone path Hin). done. }
  split_and!.
  - rewrite file_check_unfold, Hnames. reflexivity.
  - unfold sample_check. by rewrite Hnames.
  - unfold datapoint_check. by rewrite Hnames.
Qed.

(** X6: what the stage of the file names guarantees to the two later
    stages, for track 1 and track 2.  Once it has passed, every [.jsonl]
    name has a language pair and a mode among the three modes, its output
    file is found and was read by the Record Reader; so the Schema Validator
    reaches the records of that file and runs its checks on each of them. *)
Theorem checked_files_are_read (output_list : list string) (track : Z)
    (msg fname : string) :
  file_check output_list track = Ok msg → track = 1 ∨ track = 2 →
  fname ∈ jsonl_fnames output_list →
  ∃ langpair mode found records,
    index_neg (PyStr.split "." fname) 3 = Some langpair
    ∧ index_neg (PyStr.split "." fname) 2 = Some mode
    ∧ mode ∈ modes
    ∧ find_file_by_prefix fname output_list false = Some found
    ∧ file_basic_check (Some found) true = Data records
    ∧ datapoint_check_file output_list track fname
      = for_each (enumerate records) (λ '(idx, datapoint),
          datapoint_record_check (PyStr.take 2 langpair)
            (PyStr.drop 2 langpair) mode track (Some found) idx datapoint).
Proof.
  intros (_ & Hnaming & _ & Hread)%file_check_Ok_iff Htrack Hfname.
  rewrite Forall_forall in Hnaming.
  apply (file_naming_check_Ok_iff fname track Htrack) in Hnaming
    as (stem & mode & Hsplit & Hlen & Hmode & Hname); [|done].
  unfold jsonl_fnames in Hfname.
  apply list_elem_of_fmap in Hfname as (path & -> & [Hends Hpath]%list_elem_of_filter).
  destruct (find_output_of_path output_list path Hpath)
    as (found & Hfind & Hfound & Hfound_ends).
  destruct (Hread found Hfound) as [records Hrecords].
  { apply (endswith_trans _ _ _ Hfound_ends). rewrite Hname.
    change ("." +:+ "jsonl") with ".jsonl".
    rewrite <-!string_app_assoc. apply endswith_app. }
  assert (∃ langpair, index_neg (stem ++ [mode; "jsonl"]) 3 = Some langpair)
    as [langpair Hlangpair].
  { unfold index_neg. rewrite length_app. simpl.
    rewrite bool_decide_eq_true_2 by lia. apply lookup_lt_is_Some_2.
    rewrite length_app. simpl. lia. }
  exists langpair, mode, found, records.
  unfold datapoint_check_file. rewrite Hsplit, Hlangpair, Hfind, Hrecords.
  rewrite index_neg_app by (simpl; lia).
  split_and!; done.
Qed.


(** ** The Schema Validator on one record *)

Lemma getitem_NoDup (d : list (string * json)) (k : string) (v : json) :
  NoDup d.*1 → (k, v) ∈ d → getitem (JDict d) k = Ok v.
Proof. intros Hd Hin. simpl. by rewrite (assoc_NoDup k v d). Qed.

(** The loop of [check_dict_format] over a part [l] of the items of [d]. *)
Lemma check_dict_format_loop_first (d l : list (string * json)) (track : Z)
    (expected : pytype) :
  NoDup d.*1 → l ⊆ d → track2dtype track = Ok expected →
  (Forall (λ kv, type_of kv.2 = expected) l
   ↔ check_dict_format_loop (JDict d) track l.*1 = Ok (true, None))
  ∧ (∀ pre k v post,
       l = pre ++ (k, v) :: post →
       Forall (λ kv, type_of kv.2 = expected) pre → type_of v ≠ expected →
       check_dict_format_loop (JDict d) track l.*1
       = Ok (false, Some (type_of v))).
Proof.
  clear listdir json_loads read_lines.
  intros Hd Hl Htrack. induction l as [|[k v] l IH].
  - split; [done|]. intros [|??] ????; discriminate.
  - assert ((k, v) ∈ d) as Hkv by (apply Hl; left).
    destruct IH as [IHok IHbad]; [intros kv Hin; apply Hl; by right|].
    cbn [fmap list_fmap check_dict_format_loop fst].
    rewrite (getitem_NoDup d k v), Htrack by done. simpl.
    case_bool_decide as Hv.
    + split.
      * split; [|done]. by intros [? _]%Forall_cons.
      * intros [|[k' v'] pre] k0 v0 post Hsplit Hpre Hv0; simplify_eq/=.
        { done. }
        by apply Forall_cons in Hpre as [? _].
    + split.
      * rewrite Forall_cons, <-IHok. naive_solver.
      * intros [|[k' v'] pre] k0 v0 post Hsplit Hpre Hv0; simplify_eq/=.
        apply Forall_cons in Hpre as [_ Hpre]. by eapply IHbad.
Qed.

Lemma check_loop_None terms track ks o :
  check_dict_format_loop terms track ks = Ok (true, o) → o = None.
Proof.
  induction ks as [|k ks IH]; simpl; [congruence|].
  destruct (getitem terms k); [simpl|done].
  destruct (track2dtype track); [simpl|done].
  case_bool_decide; [done | exact IH].
Qed.

(** X7: what [check_dict_format] answers on a terminology.  An empty
    terminology is accepted for every track.  For track 1 (respectively 2)
    a terminology is accepted exactly when every value is a [str]
    (respectively a [list]); otherwise the answer carries the type of the
    first value, in the order of the keys, that is of another type.  For
    any other track a terminology that is not empty raises [KeyError]. *)
Theorem check_dict_format_answers (d : list (string * json)) (track : Z) :
  NoDup d.*1 →
  check_dict_format (JDict []) track = Ok (true, None)
  ∧ (∀ expected, track2dtype track = Ok expected →
       (check_dict_format (JDict d) track = Ok (true, None)
        ↔ Forall (λ kv, type_of kv.2 = expected) d)
       ∧ (∀ pre k v post,
            d = pre ++ (k, v) :: post →
            Forall (λ kv, type_of kv.2 = expected) pre →
            type_of v ≠ expected →
            check_dict_format (JDict d) track = Ok (false, Some (type_of v))))
  ∧ (track2dtype 1 = Ok TStr ∧ track2dtype 2 = Ok TList)
  ∧ (track ≠ 1 → track ≠ 2 → d ≠ [] →
     check_dict_format (JDict d) track = Raise (KeyError (KInt track))).
Proof.
  intros Hd. split_and!; [done| |done|done|].
  - intros expected Htrack.
    destruct (check_dict_format_loop_first d d track expected) as [Hok Hbad];
      [done..|].
    split; [symmetry; apply Hok | apply Hbad].
  - intros H1 H2 Hne. destruct d as [|[k v] d]; [done|].
    unfold check_dict_format. simpl.
    rewrite bool_decide_eq_true_2 by done. simpl.
    unfold track2dtype. by rewrite !bool_decide_eq_false_2.
Qed.

Lemma mem_modes_with_terms (mode : string) :
  mem mode ["random"; "proper"] = true ↔ mode = "random" ∨ mode = "proper".
Proof.
  clear path_sep read_lines json_loads listdir.
  unfold mem. rewrite bool_decide_eq_true. set_solver.
Qed.

Lemma expected_keys_present (src tgt mode : string)
    (d : list (string * json)) :
  list_to_set d.*1 = expected_keys src tgt mode →
  is_Some (assoc src d) ∧ is_Some (assoc tgt d)
  ∧ (mode = "random" ∨ mode = "proper" → is_Some (assoc "terms" d)).
Proof.
  clear path_sep read_lines json_loads listdir.
  intros Hkeys. rewrite !assoc_is_Some.
  rewrite <-!(elem_of_list_to_set (C:=gset string)), Hkeys.
  unfold expected_keys. split_and!; [set_solver..|].
  intros Hmode. rewrite bool_decide_eq_true_2 by done. set_solver.
Qed.

(** The checks of a record behind the check of its key set. *)
Lemma datapoint_record_check_typed src tgt mode track ofn idx
    (d : list (string * json)) (s t : json) :
  list_to_set d.*1 = expected_keys src tgt mode →
  assoc src d = Some s → assoc tgt d = Some t →
  datapoint_record_check src tgt mode track ofn idx (JDict d)
  = (assert (bool_decide (type_of s = TStr))
            (SentenceTypeError false ofn idx (type_of s));;
     assert (bool_decide (type_of t = TStr))
            (SentenceTypeError true ofn idx (type_of t));;
     if mem mode ["random"; "proper"] then
       terms ← getitem (JDict d) "terms";
       assert (bool_decide (type_of terms = TDict))
              (TermsTypeError ofn idx (type_of terms));;
       r ← check_dict_format terms track;
       assert r.1 (TermsValueTypeError ofn idx track r.2)
     else Ok ()).
Proof.
  intros Hkeys Hs Ht. unfold datapoint_record_check, set_eq. simpl.
  rewrite key_list_expected, bool_decide_eq_true_2 by done. simpl.
  by rewrite Hs, Ht.
Qed.

(** X8: a record with the right key set whose source sentence is no [str]
    raises the type error of the input sentence with the type found; with a
    [str] source and a target that is no [str], the type error of the output
    sentence. *)
Theorem sentence_type_errors src tgt mode track ofn idx
    (d : list (string * json)) :
  list_to_set d.*1 = expected_keys src tgt mode →
  (∀ v, assoc src d = Some v → type_of v ≠ TStr →
        datapoint_record_check src tgt mode track ofn idx (JDict d)
        = Raise (AssertionError
                   (SentenceTypeError false ofn idx (type_of v))))
  ∧ (∀ s v, assoc src d = Some (JStr s) → assoc tgt d = Some v →
            type_of v ≠ TStr →
            datapoint_record_check src tgt mode track ofn idx (JDict d)
            = Raise (AssertionError
                       (SentenceTypeError true ofn idx (type_of v)))).
Proof.
  intros Hkeys.
  destruct (expected_keys_present _ _ _ _ Hkeys) as ([s Hs] & [t Ht] & _).
  split.
  - intros v Hv Htype. assert (v = s) as -> by congruence.
    rewrite (datapoint_record_check_typed _ _ _ _ _ _ _ _ _ Hkeys Hs Ht).
    rewrite (bool_decide_eq_false_2 (type_of s = TStr)) by done. reflexivity.
  - intros s' v Hs' Hv Htype. assert (v = t) as -> by congruence.
    rewrite (datapoint_record_check_typed _ _ _ _ _ _ _ _ _ Hkeys Hs' Ht).
    simpl. rewrite (bool_decide_eq_false_2 (type_of t = TStr)) by done.
    reflexivity.
Qed.

(** X9: in a file of mode [random] or [proper], for track 1 or 2, a record
    with the right key set and [str] sentences whose terminology is no
    [dict] raises the type error of the terminology; when it is a [dict], the
    record raises the type error of its values with the type of the first
    value that has not the type of the track ([str] for track 1, [list] for
    track 2), and with the index of the record. *)
Theorem terms_type_errors src tgt mode track ofn idx
    (d : list (string * json)) (s t : string) :
  mode = "random" ∨ mode = "proper" → track = 1 ∨ track = 2 →
  list_to_set d.*1 = expected_keys src tgt mode →
  assoc src d = Some (JStr s) → assoc tgt d = Some (JStr t) →
  (∀ terms, assoc "terms" d = Some terms → type_of terms ≠ TDict →
            datapoint_record_check src tgt mode track ofn idx (JDict d)
            = Raise (AssertionError (TermsTypeError ofn idx (type_of terms))))
  ∧ (∀ e pre k v post,
       assoc "terms" d = Some (JDict e) → NoDup e.*1 →
       e = pre ++ (k, v) :: post →
       Forall (λ kv, type_of kv.2 = if bool_decide (track = 1) then TStr
                                    else TList) pre →
       type_of v ≠ (if bool_decide (track = 1) then TStr else TList) →
       datapoint_record_check src tgt mode track ofn idx (JDict d)
       = Raise (AssertionError
                  (TermsValueTypeError ofn idx track (Some (type_of v))))).
Proof.
  intros Hmode%mem_modes_with_terms Htrack Hkeys Hs Ht.
  rewrite (datapoint_record_check_typed _ _ _ _ _ _ _ _ _ Hkeys Hs Ht).
  rewrite Hmode. simpl. split.
  - intros terms -> Htype. simpl.
    rewrite bool_decide_eq_false_2 by done. reflexivity.
  - intros e pre k v post -> He Hsplit Hpre Hv. simpl.
    destruct (check_dict_format_loop_first e e track
                (if bool_decide (track = 1) then TStr else TList))
      as [_ Hbad]; [done..| |].
    { by destruct Htrack as [-> | ->]. }
    unfold check_dict_format. simpl.
    by rewrite (Hbad pre k v post Hsplit Hpre Hv).
Qed.

(** X10: for track 1 or 2, a record passes the Schema Validator exactly
    when it is a [dict] with the key set of the mode, its two sentences are
    [str] and, for the modes [random] and [proper], its terminology is a
    [dict] whose values are all of the type of the track; the elements of a
    [list] value are not looked at. *)
Theorem record_passes_iff src tgt mode track ofn idx (r : json) :
  track = 1 ∨ track = 2 →
  (∀ d e, r = JDict d → assoc "terms" d = Some (JDict e) → NoDup e.*1) →
  datapoint_record_check src tgt mode track ofn idx r = Ok ()
  ↔ ∃ d s t,
      r = JDict d
      ∧ list_to_set d.*1 = expected_keys src tgt mode
      ∧ assoc src d = Some (JStr s) ∧ assoc tgt d = Some (JStr t)
      ∧ (mode = "random" ∨ mode = "proper" →
         ∃ e, assoc "terms" d = Some (JDict e)
              ∧ Forall (λ kv, type_of kv.2 = if bool_decide (track = 1)
                                             then TStr else TList) e).
Proof.
  intros Htrack Hterms.
  assert (track2dtype track = Ok (if bool_decide (track = 1) then TStr
                                  else TList)) as Hexpected
    by by destruct Htrack as [-> | ->].
  split.
  - intros Hok.
    destruct (datapoint_record_check_keys src tgt mode track ofn idx r)
      as [Hkeys _].
    destruct (Hkeys Hok) as (d & -> & Hset).
    destruct (expected_keys_present _ _ _ _ Hset) as ([s Hs] & [t Ht] & Hpresent).
    rewrite (datapoint_record_check_typed _ _ _ _ _ _ _ _ _ Hset Hs Ht) in Hok.
    destruct s; try (by simpl in Hok). destruct t; try (by simpl in Hok).
    simpl in Hok. eexists d, _, _. split_and!; [done..|].
    intros Hmode. assert (mem mode ["random"; "proper"] = true) as Hmem
      by by apply mem_modes_with_terms.
    rewrite Hmem in Hok. destruct (Hpresent Hmode) as [terms Hassoc].
    rewrite Hassoc in Hok.
    destruct terms as [| | | | | |e]; try (by simpl in Hok). simpl in Hok.
    exists e. split; [done|].
    destruct (check_dict_format_loop_first e e track _
                (Hterms d e eq_refl Hassoc) (reflexivity e) Hexpected)
      as [Hiff _].
    apply Hiff. unfold check_dict_format in Hok. simpl in Hok.
    destruct (check_dict_format_loop (JDict e) track e.*1)
      as [[[] o]|] eqn:Hloop; try done.
    pose proof (check_loop_None _ _ _ _ Hloop) as ->. done.
  - intros (d & s & t & -> & Hset & Hs & Ht & Hmode).
    rewrite (datapoint_record_check_typed _ _ _ _ _ _ _ _ _ Hset Hs Ht).
    simpl. destruct (mem mode ["random"; "proper"]) eqn:Hmem; [|done].
    apply mem_modes_with_terms in Hmem.
    destruct (Hmode Hmem) as (e & Hassoc & Hall). simpl.
    rewrite Hassoc. simpl. unfold check_dict_format. simpl.
    destruct (check_dict_format_loop_first e e track _
                (Hterms d e eq_refl Hassoc) (reflexivity e) Hexpected)
      as [Hiff _].
    apply Hiff in Hall. by rewrite Hall.
Qed.


(** ** The Consistency Checker on records that are not as expected *)

(** X11: the Consistency Checker does not look at the shape of a record
    before it reads the source sentence.  At the first index where the check
    of the records stops, a line of the input file that is no [dict] raises
    [TypeError], and a [dict] without the key of the source language raises
    [KeyError] with that key; with a good input record the same holds of the
    record of the output file.  None of these is an assertion of the
    script. *)
Theorem records_without_source_crash (output_list input_list : list string)
    (fname langpair : string) (ins outs : list json) (idx : nat) :
  index_neg (PyStr.split "." fname) 3 = Some langpair →
  file_basic_check (find_file_by_prefix fname input_list true) true = Data ins →
  file_basic_check (find_file_by_prefix fname output_list false) true
  = Data outs →
  length ins = length outs →
  (∀ j, (j < idx)%nat →
        sample_check_record (PyStr.take 2 langpair)
          (find_file_by_prefix fname output_list false)
          (Data ins) (Data outs) j = Ok ()) →
  (∀ i o, ins !! idx = Some i → outs !! idx = Some o → type_of i ≠ TDict →
          sample_check_file output_list input_list fname = Raise TypeError)
  ∧ (∀ d o, ins !! idx = Some (JDict d) → outs !! idx = Some o →
            assoc (PyStr.take 2 langpair) d = None →
            sample_check_file output_list input_list fname
            = Raise (KeyError (KStr (PyStr.take 2 langpair))))
  ∧ (∀ d v o, ins !! idx = Some (JDict d) → outs !! idx = Some o →
              assoc (PyStr.take 2 langpair) d = Some v → type_of o ≠ TDict →
              sample_check_file output_list input_list fname = Raise TypeError)
  ∧ (∀ d v e, ins !! idx = Some (JDict d) → outs !! idx = Some (JDict e) →
              assoc (PyStr.take 2 langpair) d = Some v →
              assoc (PyStr.take 2 langpair) e = None →
              sample_check_file output_list input_list fname
              = Raise (KeyError (KStr (PyStr.take 2 langpair)))).
Proof.
  intros Hlp Hin Hout Hlen Hbefore. unfold sample_check_file.
  rewrite Hlp, Hin, Hout. simpl. unfold sample_check_data. simpl.
  rewrite bool_decide_eq_true_2 by done. simpl.
  assert (∀ e, (idx < length outs)%nat →
            sample_check_record (PyStr.take 2 langpair)
              (find_file_by_prefix fname output_list false)
              (Data ins) (Data outs) idx = Raise e →
            for_each (seq 0 (length outs))
              (sample_check_record (PyStr.take 2 langpair)
                 (find_file_by_prefix fname output_list false)
                 (Data ins) (Data outs)) = Raise e) as Hstop.
  { intros e Hidx Hrec. by apply (for_each_seq_first_failure _ _ idx). }
  split_and!.
  - intros i o Hi Ho Htype. apply Hstop; [by apply lookup_lt_Some in Ho|].
    unfold sample_check_record. simpl. rewrite Hi, Ho. simpl.
    by destruct i.
  - intros d o Hi Ho Hsrc. apply Hstop; [by apply lookup_lt_Some in Ho|].
    unfold sample_check_record. simpl. rewrite Hi, Ho. simpl.
    by rewrite Hsrc.
  - intros d v o Hi Ho Hsrc Htype. apply Hstop; [by apply lookup_lt_Some in Ho|].
    unfold sample_check_record. simpl. rewrite Hi, Ho. simpl.
    rewrite Hsrc. simpl. by destruct o.
  - intros d v e Hi Ho Hsrc Hsrc'. apply Hstop; [by apply lookup_lt_Some in Ho|].
    unfold sample_check_record. simpl. rewrite Hi, Ho. simpl.
    rewrite Hsrc. simpl. by rewrite Hsrc'.
Qed.

(** X12: when the output file found for a name cannot be read while its
    input file can, the check of the pair raises [TypeError] from
    [len(False)], as it does for a missing input file. *)
Theorem unreadable_output_crashes (output_list input_list : list string)
    (fname : string) (ins : list json) :
  is_Some (index_neg (PyStr.split "." fname) 3) →
  file_basic_check (find_file_by_prefix fname input_list true) true = Data ins →
  (∀ outs, file_basic_check (find_file_by_prefix fname output_list false) true
           ≠ Data outs) →
  sample_check_file output_list input_list fname = Raise TypeError.
Proof.
  intros [langpair Hlp] Hin Hout. unfold sample_check_file.
  rewrite Hlp, Hin. simpl. unfold sample_check_data. simpl.
  destruct (file_basic_check (find_file_by_prefix fname output_list false) true)
    as [outs|b] eqn:Hread; [|done].
  by destruct (Hout outs).
Qed.

(** ** The Completeness Checker at its bounds *)

Lemma index_neg_None {A} (l : list A) (k : nat) :
  (length l < k)%nat → index_neg l k = None.
Proof. intros Hk. unfold index_neg. by rewrite bool_decide_eq_false_2 by lia. Qed.

Lemma index_neg_is_Some {A} (l : list A) (k : nat) :
  (1 ≤ k ≤ length l)%nat → is_Some (index_neg l k).
Proof.
  intros Hk. unfold index_neg. rewrite bool_decide_eq_true_2 by lia.
  apply lookup_lt_is_Some_2. lia.
Qed.

(** X13: the Completeness Checker reads the third token from the end of
    every name before anything else: one name with fewer than three tokens
    raises [IndexError], whatever the track.  With three tokens in every
    name, a track other than 1 and 2 expects no file and passes. *)
Theorem completeness_check_bounds (fnames : list string) (sysname : string)
    (track : Z) :
  (Exists (λ f, (length (PyStr.split "." f) < 3)%nat) fnames →
   file_year_pair_check fnames sysname track = Raise IndexError)
  ∧ (Forall (λ f, (3 ≤ length (PyStr.split "." f))%nat) fnames →
     track ≠ 1 → track ≠ 2 →
     file_year_pair_check fnames sysname track = Ok ()).
Proof.
  split.
  - intros Hshort. unfold file_year_pair_check.
    assert (mapM (λ f, or_raise (index_neg (PyStr.split "." f) 3) IndexError)
                 fnames = Raise IndexError) as ->; [|done].
    induction Hshort as [f l Hf|f l _ IH]; simpl.
    + by rewrite index_neg_None.
    + destruct (index_neg (PyStr.split "." f) 3); simpl; [by rewrite IH|done].
  - intros Hlong H1 H2. rewrite file_year_pair_check_unfold.
    + unfold expected_fnames. by rewrite !bool_decide_eq_false_2.
    + eapply Forall_impl; [done|]. intros f Hf.
      apply index_neg_is_Some. split; [lia | exact Hf].
Qed.

(** The thirty names expected from a submission of track 2. *)
Lemma expected_track2_names (S : gset string) (sysname : string) :
  expected_fnames S sysname 2
  = (λ suffix, sysname +:+ suffix)
      <$> (year2pair_candidates ≫= λ '(year, lang_pair),
             three_modes ("." +:+ PyStr.of_Z year +:+ "." +:+ lang_pair)).
Proof.
  unfold expected_fnames. rewrite bool_decide_eq_false_2 by done.
  rewrite bool_decide_eq_true_2 by done.
  induction year2pair_candidates as [|[y p] l IH]; [done|].
  cbn [mbind list_bind]. rewrite fmap_app, IH. f_equal.
  unfold three_modes. cbn [fmap list_fmap].
  by rewrite !string_app_assoc.
Qed.

(** X14: a submission of track 2 passes the Completeness Checker only with
    at least thirty different file names: the three modes of each of the
    ten years. *)
Theorem track2_needs_thirty_files (fnames : list string) (sysname : string) :
  file_year_pair_check fnames sysname 2 = Ok () → (30 ≤ length fnames)%nat.
Proof.
  intros Hok.
  assert (Forall (λ f, is_Some (index_neg (PyStr.split "." f) 3)) fnames)
    as Htokens.
  { unfold file_year_pair_check in Hok.
    destruct (mapM _ fnames) as [candidates|] eqn:Hcand; [|done].
    clear Hok. revert candidates Hcand.
    induction fnames as [|f l IH]; intros candidates; [constructor|].
    simpl. destruct (index_neg (PyStr.split "." f) 3) as [p|] eqn:Hp; [|done].
    simpl. destruct (mapM _ l) as [cs|] eqn:Hl; [|done]. intros _.
    constructor; [by eexists | by eapply IH]. }
  rewrite file_year_pair_check_unfold, presence_loop_Ok in Hok by done.
  rewrite expected_track2_names in Hok.
  set (suffixes := year2pair_candidates ≫= λ '(year, lang_pair),
                     three_modes ("." +:+ PyStr.of_Z year +:+ "." +:+ lang_pair))
    in Hok.
  assert (NoDup ((λ suffix, sysname +:+ suffix) <$> suffixes)) as Hnodup.
  { apply NoDup_fmap_2; [apply String.app_inj|].
    apply (bool_decide_unpack _). by vm_compute. }
  replace 30%nat with (length ((λ suffix, sysname +:+ suffix) <$> suffixes))
    by (rewrite length_fmap; by vm_compute).
  apply submseteq_length, NoDup_submseteq; done.
Qed.

(** ** The whole run *)

(** X16: the name the stages work with is the last component of a path; for
    a path built by [main] from a directory and an entry without a path
    separator in it, that name is the entry. *)
Theorem listed_entry_is_the_name (dir entry : string) :
  PyStr.split path_sep entry = [entry] →
  List.last (PyStr.split path_sep (dir +:+ String path_sep "" +:+ entry)) ""
  = entry.
Proof.
  intros Hentry.
  change (dir +:+ String path_sep "" +:+ entry)
    with (dir +:+ String path_sep entry).
  rewrite split_app, Hentry. apply List.last_last.
Qed.


End Script.

(** * Examples

    The theorems above at the files of [demo_files], decoded by the table
    [demo_table], with [/] as the path separator. *)

Example file_basic_check_examples :
  file_basic_check (lines_in demo_files) (decode_by demo_table)
                   (Some "out/sys.enes.random.jsonl") true
  = Data [out_1; out_2]
  ∧ file_basic_check (lines_in demo_files) (decode_by demo_table)
                     (Some "out/sys.enes.random.jsonl") false
    = Flag true
  ∧ file_basic_check (lines_in demo_files) (decode_by demo_table)
                     (Some "out/broken.enes.noterm.jsonl") true
    = Flag false
  ∧ file_basic_check (lines_in demo_files) (decode_by demo_table)
                     (Some "out/nothing.jsonl") true
    = Flag false.
Proof. split_and!; reflexivity. Qed.

Lemma missing_input_file_example :
  find_file_by_prefix "sys.enes.noterm.jsonl" ["in/enes.random.jsonl"] true
  = None
  ∧ sample_check "/" (lines_in demo_files) (decode_by demo_table)
                 ["out/sys.enes.noterm.jsonl"] ["in/enes.random.jsonl"]
    = Raise TypeError.
Proof.
  destruct (missing_input_file_crashes
              "/" (lines_in demo_files) (decode_by demo_table)
              ["out/sys.enes.noterm.jsonl"] ["in/enes.random.jsonl"]
              "sys.enes.noterm.jsonl")
    as (Hfind & _ & _ & _ & _ & Hrun).
  - intros file Hfile. apply list_elem_of_singleton in Hfile as ->.
    reflexivity.
  - split; [exact Hfind|].
    apply (Hrun [] []); [reflexivity | constructor | by eexists].
Defined.

Lemma record_counts_example :
  sample_check_file (lines_in demo_files) (decode_by demo_table)
                    ["out/sys.2016.zhen.random.jsonl"]
                    ["in/2016.zhen.random.jsonl"]
                    "sys.2016.zhen.random.jsonl"
  = Raise (AssertionError
             (CountMismatchError (Some "out/sys.2016.zhen.random.jsonl") 2 3))
  ∧ message (CountMismatchError (Some "out/sys.2016.zhen.random.jsonl") 2 3)
    = "ERROR: inconsistent number of lines in out/sys.2016.zhen.random.jsonl: expected 2, got 3".
Proof.
  split; [|reflexivity].
  refine (proj1 (record_counts_are_compared
                   (lines_in demo_files) (decode_by demo_table)
                   ["out/sys.2016.zhen.random.jsonl"]
                   ["in/2016.zhen.random.jsonl"]
                   "sys.2016.zhen.random.jsonl"
                   [in_1; in_2] [out_1; out_2; out_1] _ _ _) _).
  - by eexists.
  - reflexivity.
  - reflexivity.
  - simpl. lia.
Defined.


Lemma copied_input_example :
  sample_check_file (lines_in demo_files) (decode_by demo_table)
                    ["out/sys.enes.random.jsonl"] ["in/enes.random.jsonl"]
                    "sys.enes.random.jsonl"
  = Ok ().
Proof.
  refine (proj2 (proj2 (copied_input_passes
                          (lines_in demo_files) (decode_by demo_table)
                          ["out/sys.enes.random.jsonl"]
                          ["in/enes.random.jsonl"]
                          "sys.enes.random.jsonl" "enes" "random"
                          [in_1; in_2] ["Hola"; "Adios"] _ _ _ _ _ _ _ _))).
  - reflexivity.
  - reflexivity.
  - reflexivity.
  - discriminate.
  - reflexivity.
  - repeat constructor.
    + eexists _, _. split_and!; [reflexivity..|discriminate].
    + eexists _, _. split_and!; [reflexivity..|discriminate].
  - reflexivity.
  - reflexivity.
Defined.

Lemma missing_target_key_example :
  datapoint_check_file (lines_in demo_files) (decode_by demo_table)
                       ["out/sys.enes.proper.jsonl"] 1 "sys.enes.proper.jsonl"
  = Raise (AssertionError
             (SchemaError (Some "out/sys.enes.proper.jsonl") 0
                          ["en"; "es"; "terms"] ["en"; "terms"]))
  ∧ message (SchemaError (Some "out/sys.enes.proper.jsonl") 0
                         ["en"; "es"; "terms"] ["en"; "terms"])
    = "ERROR: wrong key set in file out/sys.enes.proper.jsonl, 0 line: expected en, es, terms, got en, terms".
Proof.
  split; [|reflexivity].
  refine (proj2 (key_set_is_exact
                   (lines_in demo_files) (decode_by demo_table)
                   ["out/sys.enes.proper.jsonl"] 1 "sys.enes.proper.jsonl"
                   "enes" "proper" [no_target] _ _ _)
                0%nat [("en", JStr "Hi"); ("terms", JDict [])] "es" _ _ _).
  - reflexivity.
  - reflexivity.
  - reflexivity.
  - reflexivity.
  - right. split.
    + apply (bool_decide_unpack _). by vm_compute.
    + apply (bool_decide_unpack _). by vm_compute.
  - intros j r Hj. lia.
Defined.




Lemma unlisted_pair_example :
  file_year_pair_check
    ["sys.enes.noterm.jsonl"; "sys.enes.random.jsonl";
     "sys.enes.proper.jsonl"] "sys" 1
  = file_year_pair_check
      ["sys.enes.noterm.jsonl"; "sys.enfr.noterm.jsonl";
       "sys.enes.random.jsonl"; "sys.enes.proper.jsonl"] "sys" 1.
Proof.
  refine (proj2 (proj2 (unlisted_pairs_are_ignored
                          ["sys.enes.noterm.jsonl"; "sys.enfr.noterm.jsonl";
                           "sys.enes.random.jsonl"; "sys.enes.proper.jsonl"]
                          "sys" _))).
  repeat constructor; by eexists.
Defined.

(** C10 holds of no run of the script: it has no check of the language
    pair.  A submission of track 1 with a well-formed file name of the pair
    enfr, alone (one mode out of three) or beside the three files of enes,
    passes the whole stage of the file names, although the documentation of
    [file_check] announces that the language pair is verified and that the
    files of a submitted pair contain the three modes. *)
Theorem unlisted_pair_passes :
  file_check "/" (lines_in demo_files) (decode_by demo_table)
             ["out/sys.enfr.noterm.jsonl"] 1
  = Ok "CHECK FILENAMES: DONE"
  ∧ file_check "/" (lines_in demo_files) (decode_by demo_table)
               ["out/sys.enes.noterm.jsonl"; "out/sys.enes.random.jsonl";
                "out/sys.enes.proper.jsonl"; "out/sys.enfr.noterm.jsonl"] 1
    = Ok "CHECK FILENAMES: DONE".
Proof. split; by vm_compute. Qed.

(** C2 fails on the script for track 2: a terminology whose value is a
    sequence of values that are no strings passes the whole validation of
    the data points, although the message of the check announces
    [list(str)]. *)
Theorem sequence_of_non_strings_passes :
  check_dict_format (JDict [("cat", JList [JInt 1; JNull])]) 2
  = Ok (true, None)
  ∧ datapoint_check "/" (lines_in demo_files) (decode_by demo_table)
                    ["out/sys.2016.enzh.random.jsonl"] 2
    = Ok "CHECK VALIDITY OF DATA POINTS: DONE"
  ∧ message (TermsValueTypeError (Some "out/sys.2016.enzh.random.jsonl") 0 2
                                 (Some TStr))
    = "ERROR: wrong dtype of terminology values in file out/sys.2016.enzh.random.jsonl, 0 line: expected list(str), got <class 'str'>".
Proof. split_and!; by vm_compute. Qed.

(** ** Examples of the further properties *)

Lemma input_lookup_example :
  find_file_by_prefix "sys.enes.random.jsonl"
                      ["in/enes.noterm.jsonl"; "in/enes.random.jsonl"] true
  = find_file_by_prefix "enes.random.jsonl"
                        ["in/enes.noterm.jsonl"; "in/enes.random.jsonl"] false.
Proof.
  exact (input_lookup_strips_system_name
           "sys" "enes.random.jsonl"
           ["in/enes.noterm.jsonl"; "in/enes.random.jsonl"] eq_refl).
Defined.

Lemma output_lookup_example :
  (∃ before found after,
     find_file_by_prefix
       (List.last (PyStr.split "/" "out/sys.enes.random.jsonl") "")
       ["out/xsys.enes.random.jsonl"; "out/sys.enes.random.jsonl"] false
     = Some found
     ∧ ["out/xsys.enes.random.jsonl"; "out/sys.enes.random.jsonl"]
       = before ++ found :: after
     ∧ PyStr.endswith
         found (List.last (PyStr.split "/" "out/sys.enes.random.jsonl") "")
       = true
     ∧ Forall (λ p, PyStr.endswith
                      p (List.last (PyStr.split "/" "out/sys.enes.random.jsonl")
                                   "") = false) before)
  ∧ find_file_by_prefix
      "sys.enes.random.jsonl"
      ["out/xsys.enes.random.jsonl"; "out/sys.enes.random.jsonl"] false
    = Some "out/xsys.enes.random.jsonl".
Proof.
  split; [|reflexivity].
  apply (output_lookup_succeeds
           "/" ["out/xsys.enes.random.jsonl"; "out/sys.enes.random.jsonl"]
           "out/sys.enes.random.jsonl").
  apply (bool_decide_unpack _). by vm_compute.
Defined.

Lemma empty_submission_example :
  file_check "/" (lines_in demo_files) (decode_by demo_table)
             ["out/notes.txt"] 1
  = Raise (AssertionError (SystemNameConflictError []))
  ∧ sample_check "/" (lines_in demo_files) (decode_by demo_table)
                 ["out/notes.txt"] []
    = Ok "CHECK CONSISTENCY WITH SOURCE DATA: DONE"
  ∧ datapoint_check "/" (lines_in demo_files) (decode_by demo_table)
                    ["out/notes.txt"] 1
    = Ok "CHECK VALIDITY OF DATA POINTS: DONE".
Proof.
  apply (empty_submission "/" (lines_in demo_files) (decode_by demo_table)
                          ["out/notes.txt"] [] 1).
  intros path Hpath. apply list_elem_of_singleton in Hpath as ->. reflexivity.
Defined.

Lemma checked_files_example :
  ∃ langpair mode found records,
    index_neg (PyStr.split "." "sys.enes.random.jsonl") 3 = Some langpair
    ∧ index_neg (PyStr.split "." "sys.enes.random.jsonl") 2 = Some mode
    ∧ mode ∈ modes
    ∧ find_file_by_prefix
        "sys.enes.random.jsonl"
        ["out/sys.enes.noterm.jsonl"; "out/sys.enes.random.jsonl";
         "out/sys.enes.proper.jsonl"] false = Some found
    ∧ file_basic_check (lines_in demo_files) (decode_by demo_table)
                       (Some found) true = Data records
    ∧ datapoint_check_file
        (lines_in demo_files) (decode_by demo_table)
        ["out/sys.enes.noterm.jsonl"; "out/sys.enes.random.jsonl";
         "out/sys.enes.proper.jsonl"] 1 "sys.enes.random.jsonl"
      = for_each (enumerate records) (λ '(idx, datapoint),
          datapoint_record_check (PyStr.take 2 langpair)
            (PyStr.drop 2 langpair) mode 1 (Some found) idx datapoint).
Proof.
  apply (checked_files_are_read
           "/" (lines_in demo_files) (decode_by demo_table)
           ["out/sys.enes.noterm.jsonl"; "out/sys.enes.random.jsonl";
            "out/sys.enes.proper.jsonl"] 1 "CHECK FILENAMES: DONE").
  - by vm_compute.
  - by left.
  - apply (bool_decide_unpack _). by vm_compute.
Defined.

Lemma check_dict_format_example :
  check_dict_format (JDict [("cat", JStr "gato"); ("dog", JList [])]) 1
  = Ok (false, Some TList).
Proof.
  destruct (check_dict_format_answers
              [("cat", JStr "gato"); ("dog", JList [])] 1)
    as (_ & Htrack & _).
  - apply (bool_decide_unpack _). by vm_compute.
  - destruct (Htrack TStr eq_refl) as [_ Hfirst].
    apply (Hfirst [("cat", JStr "gato")] "dog" (JList []) []);
      [reflexivity | repeat constructor | discriminate].
Defined.

Lemma sentence_type_example :
  datapoint_record_check "en" "es" "noterm" 1 (Some "out/sys.enes.noterm.jsonl")
                         0 (JDict [("en", JInt 1); ("es", JStr "Hola")])
  = Raise (AssertionError
             (SentenceTypeError false (Some "out/sys.enes.noterm.jsonl") 0 TInt)).
Proof.
  refine (proj1 (sentence_type_errors
                   "en" "es" "noterm" 1 (Some "out/sys.enes.noterm.jsonl") 0
                   [("en", JInt 1); ("es", JStr "Hola")] _)
                (JInt 1) eq_refl _).
  - apply (bool_decide_unpack _). by vm_compute.
  - discriminate.
Defined.

Lemma terms_type_example :
  datapoint_record_check
    "en" "zh" "random" 2 (Some "out/sys.2016.enzh.random.jsonl") 3
    (JDict [("en", JStr "Hi"); ("zh", JStr "Ni hao");
            ("terms", JDict [("cat", JStr "mao")])])
  = Raise (AssertionError
             (TermsValueTypeError (Some "out/sys.2016.enzh.random.jsonl") 3 2
                                  (Some TStr))).
Proof.
  refine (proj2 (terms_type_errors
                   "en" "zh" "random" 2 (Some "out/sys.2016.enzh.random.jsonl")
                   3 [("en", JStr "Hi"); ("zh", JStr "Ni hao");
                      ("terms", JDict [("cat", JStr "mao")])]
                   "Hi" "Ni hao" _ _ _ eq_refl eq_refl)
                [("cat", JStr "mao")] [] "cat" (JStr "mao") []
                eq_refl _ eq_refl _ _).
  - by left.
  - by right.
  - apply (bool_decide_unpack _). by vm_compute.
  - apply (bool_decide_unpack _). by vm_compute.
  - constructor.
  - discriminate.
Defined.

Lemma record_passes_example :
  datapoint_record_check "en" "zh" "random" 2
                         (Some "out/sys.2016.enzh.random.jsonl") 0 numbers
  = Ok ().
Proof.
  apply (record_passes_iff "en" "zh" "random" 2
                           (Some "out/sys.2016.enzh.random.jsonl") 0 numbers).
  - by right.
  - intros d e [= <-] [= <-]. apply (bool_decide_unpack _). by vm_compute.
  - eexists _, "Hi", "Ni hao". split_and!; [reflexivity| |reflexivity..|].
    + apply (bool_decide_unpack _). by vm_compute.
    + intros _. eexists. split; [reflexivity|]. by repeat constructor.
Defined.

Lemma record_without_source_example :
  sample_check_file (lines_in demo_files_2) (decode_by demo_table_2)
                    ["out/sys.enru.random.jsonl"] ["in/enru.random.jsonl"]
                    "sys.enru.random.jsonl"
  = Raise (KeyError (KStr "en")).
Proof.
  destruct (records_without_source_crash
              (lines_in demo_files_2) (decode_by demo_table_2)
              ["out/sys.enru.random.jsonl"] ["in/enru.random.jsonl"]
              "sys.enru.random.jsonl" "enru"
              [in_1; no_source] [out_1; out_2] 1)
    as (_ & Hkey & _).
  - reflexivity.
  - reflexivity.
  - reflexivity.
  - reflexivity.
  - intros [|j] Hj; [reflexivity | lia].
  - apply (Hkey [("terms", JDict [])] out_2); reflexivity.
Defined.

Lemma unreadable_output_example :
  sample_check_file (lines_in demo_files_2) (decode_by demo_table_2)
                    ["out/sys.enru.noterm.jsonl"] ["in/enru.noterm.jsonl"]
                    "sys.enru.noterm.jsonl"
  = Raise TypeError.
Proof.
  apply (unreadable_output_crashes
           (lines_in demo_files_2) (decode_by demo_table_2)
           ["out/sys.enru.noterm.jsonl"] ["in/enru.noterm.jsonl"]
           "sys.enru.noterm.jsonl" [in_1]).
  - by eexists.
  - reflexivity.
  - intros outs. discriminate.
Defined.

Lemma thirty_files_example :
  (30 ≤ length (expected_fnames ∅ "sys" 2))%nat.
Proof.
  apply (track2_needs_thirty_files (expected_fnames ∅ "sys" 2) "sys").
  by vm_compute.
Defined.

Lemma listed_entry_example :
  List.last (PyStr.split "/" "out/sys.enes.random.jsonl") ""
  = "sys.enes.random.jsonl".
Proof.
  exact (listed_entry_is_the_name "/" "out" "sys.enes.random.jsonl" eq_refl).
Defined.

